(** * vpROSRobot: the odometry integrator and its guarded accessors

    A shallow embedding of [src/robot/vpROSRobot.cpp] (visp_ros): the
    robot object, the busy-wait flag [odom_mutex] that guards its odometry
    record, the subscriber callback [odomCallback] and the accessors
    [setVelocity], [getPosition], [getDisplacement] and [init].

    - [double] is the IEEE-754 binary64 type of the kernel ([PrimFloat]);
    - the member functions are programs of a small monad that threads the
      robot, the ROS runtime and the caller's reference arguments, records
      every access to the odometry record, and ends by returning, by
      throwing a [vpRobotException], by spinning on the flag, or in
      undefined behaviour;
    - the spin loop [while(!odom_mutex);] is executed with fuel. *)

From Stdlib Require Import ZArith NArith List String Bool Lia Floats.
Import ListNotations.

Set Implicit Arguments.

(** ** Numbers *)

Definition double := float.

(** [uint32_t]: the fields of [ros::Time] and the members [_sec], [_nsec].
    The program only copies these values, compares them with 0 and converts
    them to [double]. *)
Definition uint32 := N.

(** [(double)n] for an unsigned 32-bit [n]: exact. *)
Definition double_of_uint32 (n : uint32) : double :=
  PrimFloat.of_uint63 (Uint63.of_Z (Z.of_N n)).
Arguments double_of_uint32 : simpl never.

(** ** ViSP vectors *)

(** [vpColVector]: a column of doubles; [v[i]] is [vec_get v i]. *)
Definition vpColVector := list double.

(** [vpColVector v(n)]: [n] rows set to zero. *)
Definition vpColVector_new (n : nat) : vpColVector := repeat 0%float n.

Definition vec_get (v : vpColVector) (i : nat) : double := nth i v 0%float.

(** [v[i] = f (v[i])]; the program only indexes rows that exist. *)
Fixpoint vec_update (v : vpColVector) (i : nat) (f : double -> double)
  : vpColVector :=
  match v, i with
  | [], _ => []
  | x :: v', O => f x :: v'
  | x :: v', S i' => x :: vec_update v' i' f
  end.

(** [a - b] of [vpColVector]: row by row. *)
Fixpoint vec_minus (a b : vpColVector) : vpColVector :=
  match a, b with
  | x :: a', y :: b' => (x - y)%float :: vec_minus a' b'
  | _, _ => []
  end.

(** Decidable (Leibniz) equality of vectors. *)
Fixpoint vec_eqb (a b : vpColVector) : bool :=
  match a, b with
  | [], [] => true
  | x :: a', y :: b' => PrimFloat.Leibniz.eqb x y && vec_eqb a' b'
  | _, _ => false
  end.

(** [vpTranslationVector] (x, y, z) and [vpQuaternionVector] (x, y, z, w). *)
Definition vpTranslationVector := list double.
Definition vpQuaternionVector := list double.

(** ** ROS messages (the fields the program reads) *)

Module Time.
Record t := Build { sec : uint32; nsec : uint32 }.
End Time.

Module Header.
Record t := Build { stamp : Time.t }.
End Header.

Module Point.
Record t := Build { x : double; y : double; z : double }.
End Point.

Module Quaternion.
Record t := Build { x : double; y : double; z : double; w : double }.
End Quaternion.

Module Vector3.
Record t := Build { x : double; y : double; z : double }.
End Vector3.

Module Pose.
Record t := Build { position : Point.t; orientation : Quaternion.t }.
End Pose.

Module PoseWithCovariance.
Record t := Build { pose : Pose.t }.
End PoseWithCovariance.

Module Twist.
Record t := Build { linear : Vector3.t; angular : Vector3.t }.
End Twist.

Module TwistWithCovariance.
Record t := Build { twist : Twist.t }.
End TwistWithCovariance.

(** [nav_msgs::Odometry] *)
Module Odometry.
Record t := Build {
  header : Header.t;
  pose : PoseWithCovariance.t;
  twist : TwistWithCovariance.t }.
End Odometry.

(** [struct timespec] *)
Module timespec.
Record t := Build { tv_sec : Z; tv_nsec : Z }.
End timespec.

(** ** ViSP control frames and exceptions *)

(** ViSP's [vpRobot::vpControlFrameType]. *)
Inductive vpControlFrameType :=
| REFERENCE_FRAME
| ARTICULAR_FRAME
| CAMERA_FRAME
| MIXT_FRAME.

Definition frame_eqb (a b : vpControlFrameType) : bool :=
  match a, b with
  | REFERENCE_FRAME, REFERENCE_FRAME
  | ARTICULAR_FRAME, ARTICULAR_FRAME
  | CAMERA_FRAME, CAMERA_FRAME
  | MIXT_FRAME, MIXT_FRAME => true
  | _, _ => false
  end.

(** The error codes of [vpRobotException] the program throws. *)
Inductive vpRobotException :=
| constructionError (msg : string)
| wrongStateError (msg : string).

(** ** The ROS runtime of the process *)

Record ros_runtime := Build_ros_runtime {
  ros_isInitialized : bool;              (* ros::isInitialized() *)
  ros_master_URI : string;               (* ros::master::getURI() *)
  ros_advertised : list string;          (* topics with a publisher *)
  ros_subscribed : list string;          (* topics with a subscriber *)
  ros_outbox : list (string * Twist.t)   (* messages published, oldest first *)
}.

(** ** The robot object *)

(** Modelled from the spec: the class declaration (visp_ros/vpROSRobot.h) is
    not among the sources. The members are those the constructor and the
    member functions name; their types follow the use made of them and the
    State Record of the specification ([_sec], [_nsec]: the (seconds,
    nanoseconds) pair of the last sample, unsigned like [ros::Time]). The
    handles [n], [cmdvel], [odom], [spinner] keep what the program does
    with them. *)
Record vpROSRobot := Build_vpROSRobot {
  n : bool;                        (* a node handle has been allocated *)
  cmdvel : option string;          (* publisher: the topic it advertises *)
  odom : option string;            (* subscriber: the topic it listens to *)
  spinner : bool;                  (* the asynchronous spinner is running *)
  isInitialized : bool;
  q : vpQuaternionVector;
  p : vpTranslationVector;
  pose_prev : vpColVector;
  displacement : vpColVector;
  _sec : uint32;
  _nsec : uint32;
  odom_mutex : bool;
  _master_uri : string;
  _topic_cmd : string;
  _topic_odom : string;
  _nodespace : string
}.

(** The constructor. *)
Definition vpROSRobot_new : vpROSRobot :=
  {| n := false; cmdvel := None; odom := None; spinner := false;
     isInitialized := false;
     odom_mutex := true;
     q := [0; 0; 0; 1]%float;
     p := [0; 0; 0]%float;
     _sec := 0%N;
     _nsec := 0%N;
     displacement := vpColVector_new 6;
     pose_prev := vpColVector_new 6;
     _master_uri := "http://127.0.0.1:11311"%string;
     _topic_cmd := "cmd_vel"%string;
     _topic_odom := "odom"%string;
     _nodespace := ""%string |}.

(** Member assignments. *)
Definition set_odom_mutex (b : bool) (r : vpROSRobot) : vpROSRobot :=
  {| n := n r; cmdvel := cmdvel r; odom := odom r; spinner := spinner r;
     isInitialized := isInitialized r; q := q r; p := p r;
     pose_prev := pose_prev r; displacement := displacement r;
     _sec := _sec r; _nsec := _nsec r; odom_mutex := b;
     _master_uri := _master_uri r; _topic_cmd := _topic_cmd r;
     _topic_odom := _topic_odom r; _nodespace := _nodespace r |}.

Definition set_q (v : vpQuaternionVector) (r : vpROSRobot) : vpROSRobot :=
  {| n := n r; cmdvel := cmdvel r; odom := odom r; spinner := spinner r;
     isInitialized := isInitialized r; q := v; p := p r;
     pose_prev := pose_prev r; displacement := displacement r;
     _sec := _sec r; _nsec := _nsec r; odom_mutex := odom_mutex r;
     _master_uri := _master_uri r; _topic_cmd := _topic_cmd r;
     _topic_odom := _topic_odom r; _nodespace := _nodespace r |}.

Definition set_p (v : vpTranslationVector) (r : vpROSRobot) : vpROSRobot :=
  {| n := n r; cmdvel := cmdvel r; odom := odom r; spinner := spinner r;
     isInitialized := isInitialized r; q := q r; p := v;
     pose_prev := pose_prev r; displacement := displacement r;
     _sec := _sec r; _nsec := _nsec r; odom_mutex := odom_mutex r;
     _master_uri := _master_uri r; _topic_cmd := _topic_cmd r;
     _topic_odom := _topic_odom r; _nodespace := _nodespace r |}.

Definition set_pose_prev (v : vpColVector) (r : vpROSRobot) : vpROSRobot :=
  {| n := n r; cmdvel := cmdvel r; odom := odom r; spinner := spinner r;
     isInitialized := isInitialized r; q := q r; p := p r;
     pose_prev := v; displacement := displacement r;
     _sec := _sec r; _nsec := _nsec r; odom_mutex := odom_mutex r;
     _master_uri := _master_uri r; _topic_cmd := _topic_cmd r;
     _topic_odom := _topic_odom r; _nodespace := _nodespace r |}.

Definition set_displacement (v : vpColVector) (r : vpROSRobot) : vpROSRobot :=
  {| n := n r; cmdvel := cmdvel r; odom := odom r; spinner := spinner r;
     isInitialized := isInitialized r; q := q r; p := p r;
     pose_prev := pose_prev r; displacement := v;
     _sec := _sec r; _nsec := _nsec r; odom_mutex := odom_mutex r;
     _master_uri := _master_uri r; _topic_cmd := _topic_cmd r;
     _topic_odom := _topic_odom r; _nodespace := _nodespace r |}.

Definition set__sec (v : uint32) (r : vpROSRobot) : vpROSRobot :=
  {| n := n r; cmdvel := cmdvel r; odom := odom r; spinner := spinner r;
     isInitialized := isInitialized r; q := q r; p := p r;
     pose_prev := pose_prev r; displacement := displacement r;
     _sec := v; _nsec := _nsec r; odom_mutex := odom_mutex r;
     _master_uri := _master_uri r; _topic_cmd := _topic_cmd r;
     _topic_odom := _topic_odom r; _nodespace := _nodespace r |}.

Definition set__nsec (v : uint32) (r : vpROSRobot) : vpROSRobot :=
  {| n := n r; cmdvel := cmdvel r; odom := odom r; spinner := spinner r;
     isInitialized := isInitialized r; q := q r; p := p r;
     pose_prev := pose_prev r; displacement := displacement r;
     _sec := _sec r; _nsec := v; odom_mutex := odom_mutex r;
     _master_uri := _master_uri r; _topic_cmd := _topic_cmd r;
     _topic_odom := _topic_odom r; _nodespace := _nodespace r |}.

Definition set_n (v : bool) (r : vpROSRobot) : vpROSRobot :=
  {| n := v; cmdvel := cmdvel r; odom := odom r; spinner := spinner r;
     isInitialized := isInitialized r; q := q r; p := p r;
     pose_prev := pose_prev r; displacement := displacement r;
     _sec := _sec r; _nsec := _nsec r; odom_mutex := odom_mutex r;
     _master_uri := _master_uri r; _topic_cmd := _topic_cmd r;
     _topic_odom := _topic_odom r; _nodespace := _nodespace r |}.

Definition set_cmdvel (v : option string) (r : vpROSRobot) : vpROSRobot :=
  {| n := n r; cmdvel := v; odom := odom r; spinner := spinner r;
     isInitialized := isInitialized r; q := q r; p := p r;
     pose_prev := pose_prev r; displacement := displacement r;
     _sec := _sec r; _nsec := _nsec r; odom_mutex := odom_mutex r;
     _master_uri := _master_uri r; _topic_cmd := _topic_cmd r;
     _topic_odom := _topic_odom r; _nodespace := _nodespace r |}.

Definition set_odom (v : option string) (r : vpROSRobot) : vpROSRobot :=
  {| n := n r; cmdvel := cmdvel r; odom := v; spinner := spinner r;
     isInitialized := isInitialized r; q := q r; p := p r;
     pose_prev := pose_prev r; displacement := displacement r;
     _sec := _sec r; _nsec := _nsec r; odom_mutex := odom_mutex r;
     _master_uri := _master_uri r; _topic_cmd := _topic_cmd r;
     _topic_odom := _topic_odom r; _nodespace := _nodespace r |}.

Definition set_spinner (v : bool) (r : vpROSRobot) : vpROSRobot :=
  {| n := n r; cmdvel := cmdvel r; odom := odom r; spinner := v;
     isInitialized := isInitialized r; q := q r; p := p r;
     pose_prev := pose_prev r; displacement := displacement r;
     _sec := _sec r; _nsec := _nsec r; odom_mutex := odom_mutex r;
     _master_uri := _master_uri r; _topic_cmd := _topic_cmd r;
     _topic_odom := _topic_odom r; _nodespace := _nodespace r |}.

Definition set_isInitialized (v : bool) (r : vpROSRobot) : vpROSRobot :=
  {| n := n r; cmdvel := cmdvel r; odom := odom r; spinner := spinner r;
     isInitialized := v; q := q r; p := p r; pose_prev := pose_prev r;
     displacement := displacement r; _sec := _sec r; _nsec := _nsec r;
     odom_mutex := odom_mutex r; _master_uri := _master_uri r;
     _topic_cmd := _topic_cmd r; _topic_odom := _topic_odom r;
     _nodespace := _nodespace r |}.

(** ** Programs over the robot *)

(** The members of the odometry record. *)
Inductive field := F_p | F_q | F_sec | F_nsec | F_displacement | F_pose_prev.

(** What a program does to the flag and to the odometry record, in order. *)
Inductive event :=
| Acquire              (* odom_mutex = false *)
| Release              (* odom_mutex = true *)
| Read (f : field)
| Write (f : field).

(** How a call ends. [Spinning]: still in [while(!odom_mutex);] when the
    fuel ran out. [Undefined]: the call has done something whose behaviour
    C++ leaves undefined (a write through a pointer that was never set);
    what the store holds from then on means nothing. *)
Inductive outcome (A : Type) :=
| Returned (a : A)
| Thrown (e : vpRobotException)
| Spinning
| Undefined.
Arguments Thrown {A} e.
Arguments Spinning {A}.
Arguments Undefined {A}.

(** The store a call runs in: the object, the ROS runtime, and the caller's
    variables bound to the reference parameters of the call. *)
Record world (L : Type) := World {
  self : vpROSRobot;
  ros : ros_runtime;
  refs : L
}.

Definition M (L A : Type) : Type :=
  world L -> outcome A * world L * list event.

Definition ret {L A} (a : A) : M L A := fun w => (Returned a, w, []).

Definition bind {L A B} (m : M L A) (k : A -> M L B) : M L B :=
  fun w =>
    match m w with
    | (Returned a, w1, t1) =>
        match k a w1 with
        | (o, w2, t2) => (o, w2, t1 ++ t2)
        end
    | (Thrown e, w1, t1) => (Thrown e, w1, t1)
    | (Spinning, w1, t1) => (Spinning, w1, t1)
    | (Undefined, w1, t1) => (Undefined, w1, t1)
    end.

Definition throw {L A} (e : vpRobotException) : M L A :=
  fun w => (Thrown e, w, []).

Definition undefined {L A} : M L A :=
  fun w => (Undefined, w, []).

Declare Scope robot_scope.
Delimit Scope robot_scope with robot.
Notation "x <- m ;; k" := (bind m (fun x => k))
  (at level 61, m at next level, right associativity) : robot_scope.
Notation "m ;; k" := (bind m (fun _ => k))
  (at level 61, right associativity) : robot_scope.
Local Open Scope robot_scope.

Definition outcome_of {L A} (x : outcome A * world L * list event) : outcome A :=
  fst (fst x).
Definition world_of {L A} (x : outcome A * world L * list event) : world L :=
  snd (fst x).
Definition trace_of {L A} (x : outcome A * world L * list event) : list event :=
  snd x.

Section Primitives.
Context {L : Type}.

(** A member that is not part of the odometry record. *)
Definition member {A} (proj : vpROSRobot -> A) : M L A :=
  fun w => (Returned (proj (self w)), w, []).

Definition assign (upd : vpROSRobot -> vpROSRobot) : M L unit :=
  fun w => (Returned tt, World (upd (self w)) (ros w) (refs w), []).

(** A member of the odometry record: the access is recorded. *)
Definition read {A} (f : field) (proj : vpROSRobot -> A) : M L A :=
  fun w => (Returned (proj (self w)), w, [Read f]).

Definition write (f : field) (upd : vpROSRobot -> vpROSRobot) : M L unit :=
  fun w => (Returned tt, World (upd (self w)) (ros w) (refs w), [Write f]).

(** [odom_mutex = b;] *)
Definition assign_odom_mutex (b : bool) : M L unit :=
  fun w => (Returned tt, World (set_odom_mutex b (self w)) (ros w) (refs w),
            [if b then Release else Acquire]).

(** [while(!odom_mutex);] *)
Fixpoint spin (fuel : nat) : M L unit :=
  fun w =>
    match fuel with
    | O => (Spinning, w, [])
    | S fuel' => if odom_mutex (self w) then (Returned tt, w, [])
                 else spin fuel' w
    end.

(** The caller's variables behind the reference parameters. *)
Definition assign_refs (upd : L -> L) : M L unit :=
  fun w => (Returned tt, World (self w) (ros w) (upd (refs w)), []).

(** The ROS runtime. *)
Definition runtime {A} (proj : ros_runtime -> A) : M L A :=
  fun w => (Returned (proj (ros w)), w, []).

Definition assign_runtime (upd : ros_runtime -> ros_runtime) : M L unit :=
  fun w => (Returned tt, World (self w) (upd (ros w)) (refs w), []).
End Primitives.

(** A callee's automatic variable [init], passed on by reference: it lives
    for the call and is dropped however the call ends. *)
Definition with_local {L B A} (init : B) (m : M (L * B) A) : M L A :=
  fun w =>
    match m (World (self w) (ros w) (refs w, init)) with
    | (o, w', t) => (o, World (self w') (ros w') (fst (refs w')), t)
    end.

(** ** The ROS calls the program makes *)

Definition master_prefix : string := "__master:=".

(** The [__master:=URI] remapping among the arguments of [ros::init]. *)
Fixpoint master_remap (argv : list string) : option string :=
  match argv with
  | [] => None
  | a :: argv' =>
      if String.prefix master_prefix a
      then Some (String.substring (String.length master_prefix)
                   (String.length a - String.length master_prefix) a)
      else master_remap argv'
  end.

(** [ros::init(argc, argv, ...)]: the runtime is initialised, with the master
    of the remapping if there is one (else the one of the environment). *)
Definition ros_init (argv : list string) (rt : ros_runtime) : ros_runtime :=
  {| ros_isInitialized := true;
     ros_master_URI := match master_remap argv with
                       | Some uri => uri
                       | None => ros_master_URI rt
                       end;
     ros_advertised := ros_advertised rt;
     ros_subscribed := ros_subscribed rt;
     ros_outbox := ros_outbox rt |}.

(** [n->advertise<geometry_msgs::Twist>(topic, 1)] *)
Definition ros_advertise (topic : string) (rt : ros_runtime) : ros_runtime :=
  {| ros_isInitialized := ros_isInitialized rt;
     ros_master_URI := ros_master_URI rt;
     ros_advertised := ros_advertised rt ++ [topic];
     ros_subscribed := ros_subscribed rt;
     ros_outbox := ros_outbox rt |}.

(** [n->subscribe(topic, 1, callback, ...)] *)
Definition ros_subscribe (topic : string) (rt : ros_runtime) : ros_runtime :=
  {| ros_isInitialized := ros_isInitialized rt;
     ros_master_URI := ros_master_URI rt;
     ros_advertised := ros_advertised rt;
     ros_subscribed := ros_subscribed rt ++ [topic];
     ros_outbox := ros_outbox rt |}.

(** [pub.publish(msg)]: queued on the publisher's topic; nothing is sent
    through a publisher that advertises no topic. *)
Definition ros_publish (pub : option string) (msg : Twist.t) (rt : ros_runtime)
  : ros_runtime :=
  match pub with
  | None => rt
  | Some topic =>
      {| ros_isInitialized := ros_isInitialized rt;
         ros_master_URI := ros_master_URI rt;
         ros_advertised := ros_advertised rt;
         ros_subscribed := ros_subscribed rt;
         ros_outbox := ros_outbox rt ++ [(topic, msg)] |}
  end.

(** ** The member functions *)

(** [void vpROSRobot::init(int argc, char **argv)] *)
Definition init_argv {L} (argv : list string) : M L unit :=
  initialized <- member isInitialized ;;
  if negb initialized then
    ros_up <- runtime ros_isInitialized ;;
    (if negb ros_up then assign_runtime (ros_init argv) else ret tt) ;;
    assign (set_n true) ;;
    nodespace <- member _nodespace ;;
    topic_cmd <- member _topic_cmd ;;
    assign_runtime (ros_advertise (nodespace ++ topic_cmd)) ;;
    assign (set_cmdvel (Some (nodespace ++ topic_cmd)%string)) ;;
    topic_odom <- member _topic_odom ;;
    assign_runtime (ros_subscribe (nodespace ++ topic_odom)) ;;
    assign (set_odom (Some (nodespace ++ topic_odom)%string)) ;;
    assign (set_spinner true) ;;
    assign (set_isInitialized true)
  else ret tt.

Definition different_master_URI (uri master_uri : string) : string :=
  ("ROS already initialised with a different master_URI (" ++ uri
     ++ " != " ++ master_uri ++ ")")%string.

(** [strcpy(dest, src)]. A [char *] is [Some] of the string it points to,
    or [None] when it has never been given a value; copying through such a
    pointer is undefined. The result is the string [dest] points to
    afterwards. *)
Definition strcpy {L} (dest : option string) (src : string) : M L string :=
  match dest with
  | None => undefined
  | Some _ => ret src
  end.

(** [void vpROSRobot::init()]. [char *argv[2];] declares two pointers and
    gives them no value before [strcpy] writes through them. *)
Definition init {L} : M L unit :=
  ros_up <- runtime ros_isInitialized ;;
  uri <- runtime ros_master_URI ;;
  master_uri <- member _master_uri ;;
  (if ros_up && negb (String.eqb uri master_uri)
   then throw (constructionError (different_master_URI uri master_uri))
   else ret tt) ;;
  initialized <- member isInitialized ;;
  if negb initialized then
    let argv : list (option string) := [None; None] in
    let exe := "ros.exe"%string in
    let arg1 := master_prefix in
    argv0 <- strcpy (nth 0 argv None) exe ;;
    let arg1 := (arg1 ++ master_uri)%string in
    argv1 <- strcpy (nth 1 argv None) arg1 ;;
    init_argv [argv0; argv1]
  else ret tt.

(** [void vpROSRobot::setVelocity(frame, vel)] *)
Definition setVelocity {L} (frame : vpControlFrameType) (vel : vpColVector)
  : M L unit :=
  if frame_eqb frame REFERENCE_FRAME then
    let msg :=
      {| Twist.linear := {| Vector3.x := vec_get vel 0;
                            Vector3.y := vec_get vel 1;
                            Vector3.z := vec_get vel 2 |};
         Twist.angular := {| Vector3.x := vec_get vel 3;
                             Vector3.y := vec_get vel 4;
                             Vector3.z := vec_get vel 5 |} |} in
    pub <- member cmdvel ;;
    assign_runtime (ros_publish pub msg)
  else
    throw (wrongStateError
             "Cannot send the robot velocity in the specified control frame").

Section Orientation.
(** ViSP's conversions [vpRotationMatrix R(q)] and [vpRxyzVector V(R)]. *)
Variable vpRotationMatrix : Type.
Variable R_of_q : vpQuaternionVector -> vpRotationMatrix.
Variable Rxyz_of_R : vpRotationMatrix -> vpColVector.

(** [void vpROSRobot::getPosition(frame, pose)]; the caller's [pose] is the
    reference cell. *)
Definition getPosition (fuel : nat) (frame : vpControlFrameType)
  : M vpColVector unit :=
  spin fuel ;;
  assign_odom_mutex false ;;
  (if frame_eqb frame REFERENCE_FRAME then
     assign_refs (fun _ => vpColVector_new 6) ;;
     p0 <- read F_p (fun r => vec_get (p r) 0) ;;
     assign_refs (fun pose => vec_update pose 0 (fun _ => p0)) ;;
     p1 <- read F_p (fun r => vec_get (p r) 1) ;;
     assign_refs (fun pose => vec_update pose 1 (fun _ => p1)) ;;
     p2 <- read F_p (fun r => vec_get (p r) 2) ;;
     assign_refs (fun pose => vec_update pose 2 (fun _ => p2)) ;;
     R <- read F_q (fun r => R_of_q (q r)) ;;
     let V := Rxyz_of_R R in
     assign_refs (fun pose => vec_update pose 3 (fun _ => vec_get V 0)) ;;
     assign_refs (fun pose => vec_update pose 4 (fun _ => vec_get V 1)) ;;
     assign_refs (fun pose => vec_update pose 5 (fun _ => vec_get V 2))
   else
     throw (wrongStateError
              "Cannot get the robot position in the specified control frame")) ;;
  assign_odom_mutex true.
End Orientation.

(** [void vpROSRobot::getDisplacement(frame, dis, timestamp)]; the caller's
    [dis] and [timestamp] are the reference cells. *)
Definition getDisplacement (fuel : nat) (frame : vpControlFrameType)
  : M (vpColVector * timespec.t) unit :=
  spin fuel ;;
  assign_odom_mutex false ;;
  pose_cur <- read F_displacement displacement ;;
  sec <- read F_sec _sec ;;
  assign_refs (fun l => (fst l, {| timespec.tv_sec := Z.of_N sec;
                                   timespec.tv_nsec := timespec.tv_nsec (snd l) |})) ;;
  nsec <- read F_nsec _nsec ;;
  assign_refs (fun l => (fst l, {| timespec.tv_sec := timespec.tv_sec (snd l);
                                   timespec.tv_nsec := Z.of_N nsec |})) ;;
  assign_odom_mutex true ;;
  if frame_eqb frame REFERENCE_FRAME then
    prev <- read F_pose_prev pose_prev ;;
    assign_refs (fun l => (vec_minus pose_cur prev, snd l)) ;;
    write F_pose_prev (set_pose_prev pose_cur)
  else
    throw (wrongStateError
             "Cannot get robot displacement in the specified control frame").

(** [void vpROSRobot::getDisplacement(frame, dis)]; [indeterminate] is what
    the automatic [timestamp] holds before it is written. *)
Definition getDisplacement_dis (indeterminate : timespec.t) (fuel : nat)
  (frame : vpControlFrameType) : M vpColVector unit :=
  with_local indeterminate (getDisplacement fuel frame).

(** [dt] of [odomCallback], from the stored stamp to the one of [stamp]. *)
Definition dt_of (sec0 nsec0 : uint32) (stamp : Time.t) : double :=
  ((double_of_uint32 (Time.sec stamp) - double_of_uint32 sec0)
   + (double_of_uint32 (Time.nsec stamp) - double_of_uint32 nsec0)
     / 1000000000.0)%float.

(** [void vpROSRobot::odomCallback(msg)] *)
Definition odomCallback {L} (fuel : nat) (msg : Odometry.t) : M L unit :=
  let position := Pose.position (PoseWithCovariance.pose (Odometry.pose msg)) in
  let orientation := Pose.orientation (PoseWithCovariance.pose (Odometry.pose msg)) in
  let twist := TwistWithCovariance.twist (Odometry.twist msg) in
  let stamp := Header.stamp (Odometry.header msg) in
  spin fuel ;;
  assign_odom_mutex false ;;
  write F_p (set_p [Point.x position; Point.y position; Point.z position]) ;;
  write F_q (set_q [Quaternion.x orientation; Quaternion.y orientation;
                    Quaternion.z orientation; Quaternion.w orientation]) ;;
  started <- (sec0 <- read F_sec _sec ;;
              if negb (sec0 =? 0)%N then ret true
              else nsec0 <- read F_nsec _nsec ;; ret (negb (nsec0 =? 0)%N)) ;;
  (if started : bool then
     sec0 <- read F_sec _sec ;;
     nsec0 <- read F_nsec _nsec ;;
     let dt := dt_of sec0 nsec0 stamp in
     let add (i : nat) (v : double) : M L unit :=
       d <- read F_displacement displacement ;;
       write F_displacement
         (set_displacement (vec_update d i (fun x => x + v * dt)%float)) in
     add 0%nat (Vector3.x (Twist.linear twist)) ;;
     add 1%nat (Vector3.y (Twist.linear twist)) ;;
     add 2%nat (Vector3.z (Twist.linear twist)) ;;
     add 3%nat (Vector3.x (Twist.angular twist)) ;;
     add 4%nat (Vector3.y (Twist.angular twist)) ;;
     add 5%nat (Vector3.z (Twist.angular twist))
   else ret tt) ;;
  write F_sec (set__sec (Time.sec stamp)) ;;
  write F_nsec (set__nsec (Time.nsec stamp)) ;;
  assign_odom_mutex true.

(** The subscriber hands the samples to the callback in arrival order. *)
Fixpoint deliver {L} (fuel : nat) (msgs : list Odometry.t) : M L unit :=
  match msgs with
  | [] => ret tt
  | msg :: rest => odomCallback fuel msg ;; deliver fuel rest
  end.

(** A fresh object in a process whose ROS runtime is [rt]. *)
Definition fresh {L} (rt : ros_runtime) (l : L) : world L :=
  World vpROSRobot_new rt l.

Definition ros_down : ros_runtime :=
  {| ros_isInitialized := false; ros_master_URI := ""%string;
     ros_advertised := []; ros_subscribed := []; ros_outbox := [] |}.

(** ** What the specification talks about *)

Definition stamp_of (msg : Odometry.t) : Time.t :=
  Header.stamp (Odometry.header msg).

(** The six velocity components of a sample, linear then angular. *)
Definition velocity_of (msg : Odometry.t) : vpColVector :=
  let twist := TwistWithCovariance.twist (Odometry.twist msg) in
  [Vector3.x (Twist.linear twist); Vector3.y (Twist.linear twist);
   Vector3.z (Twist.linear twist); Vector3.x (Twist.angular twist);
   Vector3.y (Twist.angular twist); Vector3.z (Twist.angular twist)].

Definition position_of (msg : Odometry.t) : vpTranslationVector :=
  let position := Pose.position (PoseWithCovariance.pose (Odometry.pose msg)) in
  [Point.x position; Point.y position; Point.z position].

Definition orientation_of (msg : Odometry.t) : vpQuaternionVector :=
  let o := Pose.orientation (PoseWithCovariance.pose (Odometry.pose msg)) in
  [Quaternion.x o; Quaternion.y o; Quaternion.z o; Quaternion.w o].

(** A stamp in nanoseconds. *)
Definition nanoseconds (t : Time.t) : N :=
  (Time.sec t * 1000000000 + Time.nsec t)%N.

(** The stamp (0, 0), which the object also holds before any sample. *)
Definition is_zero_stamp (t : Time.t) : bool :=
  (Time.sec t =? 0)%N && (Time.nsec t =? 0)%N.

(** Each sample of [rest] is stamped strictly later than the one before it,
    [prev] being before the first. *)
Fixpoint increasing (prev : Time.t) (rest : list Odometry.t) : bool :=
  match rest with
  | [] => true
  | msg :: rest' =>
      (nanoseconds prev <? nanoseconds (stamp_of msg))%N
      && increasing (stamp_of msg) rest'
  end.

(** [time_k - time_{k-1}] in fractional seconds, as the callback computes it. *)
Definition elapsed (prev cur : Odometry.t) : double :=
  dt_of (Time.sec (stamp_of prev)) (Time.nsec (stamp_of prev)) (stamp_of cur).

(** Component [i] of the sum over the samples after [prev] of
    [velocity_k[i] * (time_k - time_{k-1})], the terms being added to [acc]
    in the order of arrival. *)
Fixpoint weighted_sum (i : nat) (prev : Odometry.t) (rest : list Odometry.t)
  (acc : double) : double :=
  match rest with
  | [] => acc
  | cur :: rest' =>
      weighted_sum i cur rest'
        (acc + vec_get (velocity_of cur) i * elapsed prev cur)%float
  end.

(** The sum of the specification for a whole sequence: the first sample
    contributes zero. *)
Definition integral (samples : list Odometry.t) : vpColVector :=
  match samples with
  | [] => vpColVector_new 6
  | first :: rest => map (fun i => weighted_sum i first rest 0%float) (seq 0 6)
  end.

(** The members of the odometry record that a discipline protects, and the
    traces in which each access to one of them falls between an [Acquire]
    and the next [Release]. *)
Fixpoint guarded (protected : field -> bool) (held : bool) (t : list event)
  : bool :=
  match t with
  | [] => true
  | Acquire :: t' => guarded protected true t'
  | Release :: t' => guarded protected false t'
  | Read f :: t' | Write f :: t' =>
      (held || negb (protected f)) && guarded protected held t'
  end.

Definition every_field (f : field) : bool := true.

Definition all_but_pose_prev (f : field) : bool :=
  match f with F_pose_prev => false | _ => true end.

(** A sample with the given stamp, position and velocity, and the identity
    orientation. *)
Definition sample (sec nsec : uint32) (pos : vpTranslationVector)
  (vel : vpColVector) : Odometry.t :=
  {| Odometry.header := {| Header.stamp := Time.Build sec nsec |};
     Odometry.pose :=
       {| PoseWithCovariance.pose :=
            {| Pose.position := {| Point.x := vec_get pos 0;
                                   Point.y := vec_get pos 1;
                                   Point.z := vec_get pos 2 |};
               Pose.orientation := {| Quaternion.x := 0%float;
                                      Quaternion.y := 0%float;
                                      Quaternion.z := 0%float;
                                      Quaternion.w := 1%float |} |} |};
     Odometry.twist :=
       {| TwistWithCovariance.twist :=
            {| Twist.linear := {| Vector3.x := vec_get vel 0;
                                  Vector3.y := vec_get vel 1;
                                  Vector3.z := vec_get vel 2 |};
               Twist.angular := {| Vector3.x := vec_get vel 3;
                                   Vector3.y := vec_get vel 4;
                                   Vector3.z := vec_get vel 5 |} |} |} |}.
Arguments sample (sec nsec)%_N pos vel.

(** ** Auxiliary definitions *)

(** [x] is a zero or a finite non-zero number. *)
Definition finite (x : double) : bool :=
  match Prim2SF x with
  | S754_zero _ | S754_finite _ _ _ => true
  | _ => false
  end.

(** The stored stamp is not (0, 0): a sample has been integrated before. *)
Definition started (r : vpROSRobot) : bool :=
  negb (_sec r =? 0)%N || negb (_nsec r =? 0)%N.

(** [d[i] += v[i] * dt] for the six rows. *)
Definition accumulate (d v : vpColVector) (dt : double) : vpColVector :=
  fold_left (fun d i => vec_update d i (fun x => x + vec_get v i * dt)%float)
    (seq 0 6) d.

(** The object after one callback that found the flag free. *)
Definition integrated (msg : Odometry.t) (r : vpROSRobot) : vpROSRobot :=
  {| n := n r; cmdvel := cmdvel r; odom := odom r; spinner := spinner r;
     isInitialized := isInitialized r;
     q := orientation_of msg;
     p := position_of msg;
     pose_prev := pose_prev r;
     displacement :=
       if started r
       then accumulate (displacement r) (velocity_of msg)
              (dt_of (_sec r) (_nsec r) (stamp_of msg))
       else displacement r;
     _sec := Time.sec (stamp_of msg);
     _nsec := Time.nsec (stamp_of msg);
     odom_mutex := true;
     _master_uri := _master_uri r; _topic_cmd := _topic_cmd r;
     _topic_odom := _topic_odom r; _nodespace := _nodespace r |}.

(** The object after the callbacks for [msgs], each finding the flag free. *)
Definition integrated_all (msgs : list Odometry.t) (r : vpROSRobot)
  : vpROSRobot :=
  fold_left (fun r msg => integrated msg r) msgs r.

(** ** Examples *)

Definition origin : vpTranslationVector := [0; 0; 0]%float.
Definition at_rest : vpColVector := [0; 0; 0; 0; 0; 0]%float.

(** The samples of the specification's example: t = 0 s, 1 s, 2 s. *)
Definition samples_from_zero : list Odometry.t :=
  [sample 0 0 origin at_rest;
   sample 1 0 origin [1; 0; 0; 0; 0; 0]%float;
   sample 2 0 origin [0; 0; 0; 0; 0; 1]%float].

(** The same velocities one second later: t = 1 s, 2 s, 3 s. *)
Definition samples_from_one : list Odometry.t :=
  [sample 1 0 origin at_rest;
   sample 2 0 origin [1; 0; 0; 0; 0; 0]%float;
   sample 3 0 origin [0; 0; 0; 0; 0; 1]%float].

(** Ten seconds at 2^1023 m/s along x. *)
Definition samples_overflowing : list Odometry.t :=
  [sample 1 0 origin at_rest;
   sample 11 0 origin [0x1p+1023; 0; 0; 0; 0; 0]%float].

(** t = 1 s, then 2.5 s. *)
Definition samples_to_2500ms : list Odometry.t :=
  [sample 1 0 origin at_rest;
   sample 2 500000000 origin [1; 0; 0; 0; 0; 0]%float].

(** A sample stamped 2 s, turning about z at 1 rad/s. *)
Definition sample_back_at_2s : Odometry.t :=
  sample 2 0 origin [0; 0; 0; 0; 0; 1]%float.

Definition no_time : timespec.t := timespec.Build 0%Z 0%Z.

(** The members the specification calls the State Record. *)
Definition odometry_record (r : vpROSRobot)
  : vpTranslationVector * vpQuaternionVector * (uint32 * uint32)
    * vpColVector * vpColVector :=
  (p r, q r, (_sec r, _nsec r), displacement r, pose_prev r).

(** A runtime that another node of the process has initialised. *)
Definition ros_elsewhere : ros_runtime :=
  {| ros_isInitialized := true;
     ros_master_URI := "http://10.0.0.1:11311"%string;
     ros_advertised := []; ros_subscribed := []; ros_outbox := [] |}.

(** ** The clipping macros *)

(** [MIN(X,Y)], [MAX(X,Y)] and [CLIP(X,A,B)] at arguments that all have
    the type [int]: C then compares the values as they are. (Arguments of
    different types are converted before they are compared, unsigned ones
    taking signed ones with them; that use is not modelled.) *)
Definition MIN (X Y : Z) : Z := if (X >? Y)%Z then Y else X.

Definition MAX (X Y : Z) : Z := if (X <? Y)%Z then Y else X.

Definition CLIP (X A B : Z) : Z := MIN (MAX X A) B.

(** The values of the type [int] (32 bits). *)
Definition is_int (z : Z) : bool :=
  (-2147483648 <=? z)%Z && (z <=? 2147483647)%Z.

(** ** Sequences of calls *)

(** A call of a member function, with the arguments the caller passes
    (for a reference parameter: what the caller's variable holds). *)
Inductive call :=
| Call_init
| Call_init_argv (argv : list string)
| Call_setVelocity (frame : vpControlFrameType) (vel : vpColVector)
| Call_getPosition (frame : vpControlFrameType) (pose : vpColVector)
| Call_getDisplacement (frame : vpControlFrameType) (dis : vpColVector)
    (timestamp : timespec.t)
| Call_getDisplacement_dis (frame : vpControlFrameType) (dis : vpColVector)
    (indeterminate : timespec.t)
| Call_odomCallback (msg : Odometry.t).

(** The object and the ROS runtime, between calls. *)
Definition process : Type := vpROSRobot * ros_runtime.

(** Run [m] on the process with [l] behind the reference parameters. *)
Definition run_call {L} (l : L) (m : M L unit) (s : process)
  : outcome unit * process :=
  let r := m (World (fst s) (snd s) l) in
  (outcome_of r, (self (world_of r), ros (world_of r))).

Section Calls.
Variable vpRotationMatrix : Type.
Variable R_of_q : vpQuaternionVector -> vpRotationMatrix.
Variable Rxyz_of_R : vpRotationMatrix -> vpColVector.

Definition perform (fuel : nat) (c : call) (s : process)
  : outcome unit * process :=
  match c with
  | Call_init => run_call tt init s
  | Call_init_argv argv => run_call tt (init_argv argv) s
  | Call_setVelocity frame vel => run_call tt (setVelocity frame vel) s
  | Call_getPosition frame pose =>
      run_call pose (getPosition R_of_q Rxyz_of_R fuel frame) s
  | Call_getDisplacement frame dis timestamp =>
      run_call (dis, timestamp) (getDisplacement fuel frame) s
  | Call_getDisplacement_dis frame dis indeterminate =>
      run_call dis (getDisplacement_dis indeterminate fuel frame) s
  | Call_odomCallback msg => run_call tt (odomCallback fuel msg) s
  end.

(** The process after the calls, made one after the other; a call that
    throws or spins does not stop the ones that follow (they come from
    callers that catch, or from other threads). *)
Definition after_calls (fuel : nat) (calls : list call) (s : process)
  : process :=
  fold_left (fun s c => snd (perform fuel c s)) calls s.

(** How each of the calls ended. *)
Fixpoint outcomes (fuel : nat) (calls : list call) (s : process)
  : list (outcome unit) :=
  match calls with
  | [] => []
  | c :: rest =>
      fst (perform fuel c s) :: outcomes fuel rest (snd (perform fuel c s))
  end.
End Calls.

(** [getPosition] with a frame other than the reference frame. *)
Definition getPosition_elsewhere (c : call) : bool :=
  match c with
  | Call_getPosition frame _ => negb (frame_eqb frame REFERENCE_FRAME)
  | _ => false
  end.

Definition is_odomCallback (c : call) : bool :=
  match c with
  | Call_odomCallback _ => true
  | _ => false
  end.

Definition is_Spinning {A} (o : outcome A) : bool :=
  match o with
  | Spinning => true
  | _ => false
  end.

Definition is_Undefined {A} (o : outcome A) : bool :=
  match o with
  | Undefined => true
  | _ => false
  end.

(** The sizes the constructor gives to the vectors of the object. *)
Definition sized (r : vpROSRobot) : Prop :=
  List.length (p r) = 3%nat /\ List.length (q r) = 4%nat /\
  List.length (displacement r) = 6%nat /\ List.length (pose_prev r) = 6%nat.

(** What the samples write and the readers only read. *)
Definition sampled (r : vpROSRobot)
  : vpTranslationVector * vpQuaternionVector * (uint32 * uint32) * vpColVector :=
  (p r, q r, (_sec r, _nsec r), displacement r).

(** Component [i] of the accumulator after the samples [rest], [prev] being
    the stamp stored before them: a sample adds its velocity times the
    elapsed time unless the stamp stored before it is (0, 0). *)
Fixpoint gated_sum (i : nat) (prev : Time.t) (rest : list Odometry.t)
  (acc : double) : double :=
  match rest with
  | [] => acc
  | cur :: rest' =>
      gated_sum i (stamp_of cur) rest'
        (if is_zero_stamp prev then acc
         else (acc + vec_get (velocity_of cur) i
                     * dt_of (Time.sec prev) (Time.nsec prev) (stamp_of cur))%float)
  end.

(** The message [setVelocity] publishes for the six rows of [vel]. *)
Definition twist_of (vel : vpColVector) : Twist.t :=
  {| Twist.linear := {| Vector3.x := vec_get vel 0;
                        Vector3.y := vec_get vel 1;
                        Vector3.z := vec_get vel 2 |};
     Twist.angular := {| Vector3.x := vec_get vel 3;
                         Vector3.y := vec_get vel 4;
                         Vector3.z := vec_get vel 5 |} |}.

(** ** Floating-point facts *)

Lemma vec_eqb_eq (a b : vpColVector) : vec_eqb a b = true <-> a = b.
Proof.
  revert b; induction a as [|x a IH]; intros [|y b]; simpl;
    try (split; [discriminate | intros E; discriminate E]);
    try (split; reflexivity).
  rewrite andb_true_iff, FloatAxioms.Leibniz.eqb_spec, IH.
  split; [intros [-> ->]; reflexivity | intros E; injection E; auto].
Qed.

Lemma vec_eqb_neq (a b : vpColVector) : vec_eqb a b = false -> a <> b.
Proof.
  intros E H. apply vec_eqb_eq in H. rewrite H in E. discriminate.
Qed.

Lemma sub_self (x : double) : finite x = true -> (x - x)%float = 0%float.
Proof.
  unfold finite. intros H. apply Prim2SF_inj. rewrite sub_spec.
  destruct (Prim2SF x) as [s| s | |s m e]; try discriminate.
  - destruct s; reflexivity.
  - unfold SF64sub, SFsub.
    match goal with
    | |- binary_normalize _ _ ?d _ _ = _ => assert (E : d = 0%Z)
    end.
    { match goal with |- _ ?a _ = _ => change (Z.sub a a = 0%Z) end.
      apply Z.sub_diag. }
    rewrite E. reflexivity.
Qed.

Lemma sub_zero (x : double) : (x - 0)%float = x.
Proof.
  apply Prim2SF_inj. rewrite sub_spec.
  change (Prim2SF 0) with (S754_zero false).
  destruct (Prim2SF x) as [s| s | |s m e]; try reflexivity.
  destruct s; reflexivity.
Qed.

(** ** One call on an object whose flag is free *)

Lemma spin_free {L} (fuel : nat) (w : world L) :
  odom_mutex (self w) = true -> spin (S fuel) w = (Returned tt, w, []).
Proof. intros H. simpl. rewrite H. reflexivity. Qed.

Lemma spin_held {L} (fuel : nat) (w : world L) :
  odom_mutex (self w) = false -> spin fuel w = (Spinning, w, []).
Proof.
  intros H. induction fuel as [|fuel IH]; simpl; [reflexivity|].
  rewrite H. exact IH.
Qed.

Lemma odomCallback_free {L} (fuel : nat) (msg : Odometry.t) (w : world L) :
  odom_mutex (self w) = true ->
  outcome_of (odomCallback (S fuel) msg w) = Returned tt /\
  world_of (odomCallback (S fuel) msg w)
  = World (integrated msg (self w)) (ros w) (refs w).
Proof.
  intros H. unfold odomCallback, bind. rewrite (spin_free _ _ H).
  destruct w as [[] rt l]. unfold integrated, started. cbn.
  repeat match goal with
         | |- context [(?s =? 0)%N] => destruct (s =? 0)%N; cbn
         end;
    split; reflexivity.
Qed.

Lemma bind_returned {L A B} (m : M L A) (k : A -> M L B) (w : world L) (a : A) :
  outcome_of (m w) = Returned a ->
  outcome_of (bind m k w) = outcome_of (k a (world_of (m w))) /\
  world_of (bind m k w) = world_of (k a (world_of (m w))) /\
  trace_of (bind m k w) = trace_of (m w) ++ trace_of (k a (world_of (m w))).
Proof.
  unfold bind, outcome_of, world_of, trace_of.
  destruct (m w) as [[o w1] t1]. simpl. intros ->.
  destruct (k a w1) as [[o2 w2] t2]. simpl. auto.
Qed.

Lemma deliver_free {L} (fuel : nat) (msgs : list Odometry.t) (w : world L) :
  odom_mutex (self w) = true ->
  outcome_of (deliver (S fuel) msgs w) = Returned tt /\
  world_of (deliver (S fuel) msgs w)
  = World (integrated_all msgs (self w)) (ros w) (refs w).
Proof.
  revert w. induction msgs as [|msg rest IH]; intros w H.
  - destruct w. split; reflexivity.
  - destruct (odomCallback_free fuel msg w H) as [Ho Hw].
    cbn [deliver].
    destruct (bind_returned _ (fun _ => deliver (S fuel) rest) w Ho)
      as (-> & -> & _).
    rewrite Hw. apply (IH (World (integrated msg (self w)) (ros w) (refs w))).
    reflexivity.
Qed.

Lemma integrated_all_free (msgs : list Odometry.t) (r : vpROSRobot) :
  odom_mutex r = true -> odom_mutex (integrated_all msgs r) = true.
Proof.
  revert r. induction msgs as [|msg rest IH]; intros r H; [exact H|].
  apply IH. reflexivity.
Qed.

Lemma integrated_all_pose_prev (msgs : list Odometry.t) (r : vpROSRobot) :
  pose_prev (integrated_all msgs r) = pose_prev r.
Proof.
  revert r. induction msgs as [|msg rest IH]; intros r; [reflexivity|].
  simpl. rewrite IH. reflexivity.
Qed.

Lemma accumulate_rows (d v : vpColVector) (dt : double) :
  List.length d = 6%nat ->
  accumulate d v dt
  = map (fun i => (vec_get d i + vec_get v i * dt)%float) (seq 0 6).
Proof.
  destruct d as [|d0 [|d1 [|d2 [|d3 [|d4 [|d5 [|]]]]]]]; try discriminate.
  reflexivity.
Qed.

Lemma accumulate_length (d v : vpColVector) (dt : double) :
  List.length (accumulate d v dt) = List.length d.
Proof.
  assert (U : forall (f : double -> double) (i : nat) (u : vpColVector),
             List.length (vec_update u i f) = List.length u).
  { intros f i u. revert i.
    induction u as [|x u IH]; intros [|i]; simpl; auto. }
  unfold accumulate. generalize (seq 0 6). intros l. revert d.
  induction l as [|i l IH]; intros d; [reflexivity|].
  simpl. rewrite IH. apply U.
Qed.

Lemma integrated_all_length (msgs : list Odometry.t) (r : vpROSRobot) :
  List.length (displacement (integrated_all msgs r)) = List.length (displacement r).
Proof.
  revert r. induction msgs as [|msg rest IH]; intros r; [reflexivity|].
  simpl. rewrite IH. simpl.
  destruct (started r); [apply accumulate_length | reflexivity].
Qed.

Lemma later_stamp_not_zero (prev cur : Time.t) :
  (nanoseconds prev <? nanoseconds cur)%N = true -> is_zero_stamp cur = false.
Proof.
  unfold is_zero_stamp, nanoseconds. intros H. apply N.ltb_lt in H.
  destruct (Time.sec cur =? 0)%N eqn:Es; [|reflexivity].
  destruct (Time.nsec cur =? 0)%N eqn:En; [|reflexivity].
  apply N.eqb_eq in Es, En. rewrite Es, En in H. lia.
Qed.

Lemma map_seq_6 {A} (f g : nat -> A) :
  (forall i, (i < 6)%nat -> f i = g i) -> map f (seq 0 6) = map g (seq 0 6).
Proof.
  intros H. apply map_ext_in. intros i Hi. apply in_seq in Hi. apply H. lia.
Qed.

Lemma vec_get_map_seq_6 (f : nat -> double) (i : nat) :
  (i < 6)%nat -> vec_get (map f (seq 0 6)) i = f i.
Proof.
  intros H. do 6 (destruct i as [|i]; [reflexivity|]). lia.
Qed.

(** Once a sample with a non-zero stamp is stored, strictly later samples
    each add their velocity times the elapsed time. *)
Lemma integrated_all_sum (rest : list Odometry.t) (prev : Odometry.t)
  (r : vpROSRobot) :
  _sec r = Time.sec (stamp_of prev) ->
  _nsec r = Time.nsec (stamp_of prev) ->
  is_zero_stamp (stamp_of prev) = false ->
  increasing (stamp_of prev) rest = true ->
  List.length (displacement r) = 6%nat ->
  displacement (integrated_all rest r)
  = map (fun i => weighted_sum i prev rest (vec_get (displacement r) i))
      (seq 0 6).
Proof.
  revert prev r. induction rest as [|cur rest IH]; intros prev r Hs Hn Hz Hi Hl.
  - change (integrated_all [] r) with r.
    destruct (displacement r) as [|d0 [|d1 [|d2 [|d3 [|d4 [|d5 [|]]]]]]];
      try discriminate. reflexivity.
  - simpl in Hi. apply andb_true_iff in Hi. destruct Hi as [Hlt Hi].
    assert (St : started r = true).
    { unfold started. unfold is_zero_stamp in Hz. rewrite Hs, Hn.
      rewrite <- negb_andb, Hz. reflexivity. }
    change (integrated_all (cur :: rest) r)
      with (integrated_all rest (integrated cur r)).
    rewrite (IH cur (integrated cur r)); try reflexivity; trivial.
    + apply map_seq_6. intros i Hlt6. cbn [weighted_sum].
      f_equal. simpl. rewrite St, accumulate_rows by exact Hl.
      rewrite vec_get_map_seq_6 by exact Hlt6.
      unfold elapsed. rewrite Hs, Hn. reflexivity.
    + apply (later_stamp_not_zero _ _ Hlt).
    + simpl. rewrite St. rewrite accumulate_length. exact Hl.
Qed.

Lemma unsupported_frame (frame : vpControlFrameType) :
  frame <> REFERENCE_FRAME -> frame_eqb frame REFERENCE_FRAME = false.
Proof. destruct frame; [congruence | reflexivity ..]. Qed.

Lemma release_after_acquire (r : vpROSRobot) :
  odom_mutex r = true -> set_odom_mutex true (set_odom_mutex false r) = r.
Proof. destruct r. simpl. intros ->. reflexivity. Qed.

Section OrientationRuns.
Variable vpRotationMatrix : Type.
Variable R_of_q : vpQuaternionVector -> vpRotationMatrix.
Variable Rxyz_of_R : vpRotationMatrix -> vpColVector.

Lemma getPosition_free (fuel : nat) (w : world vpColVector) :
  odom_mutex (self w) = true ->
  getPosition R_of_q Rxyz_of_R (S fuel) REFERENCE_FRAME w
  = (Returned tt,
     World (self w) (ros w)
       [vec_get (p (self w)) 0; vec_get (p (self w)) 1;
        vec_get (p (self w)) 2;
        vec_get (Rxyz_of_R (R_of_q (q (self w)))) 0;
        vec_get (Rxyz_of_R (R_of_q (q (self w)))) 1;
        vec_get (Rxyz_of_R (R_of_q (q (self w)))) 2],
     [Acquire; Read F_p; Read F_p; Read F_p; Read F_q; Release]).
Proof.
  intros H. unfold getPosition, bind. rewrite (spin_free _ _ H).
  destruct w as [r rt l]. cbn.
  rewrite (release_after_acquire r H). reflexivity.
Qed.

Lemma getPosition_unsupported (fuel : nat) (frame : vpControlFrameType)
  (w : world vpColVector) :
  odom_mutex (self w) = true ->
  frame <> REFERENCE_FRAME ->
  getPosition R_of_q Rxyz_of_R (S fuel) frame w
  = (Thrown (wrongStateError
               "Cannot get the robot position in the specified control frame"),
     World (set_odom_mutex false (self w)) (ros w) (refs w),
     [Acquire]).
Proof.
  intros H F. unfold getPosition, bind. rewrite (spin_free _ _ H).
  rewrite (unsupported_frame F). reflexivity.
Qed.

Lemma getPosition_held (fuel : nat) (frame : vpControlFrameType)
  (w : world vpColVector) :
  odom_mutex (self w) = false ->
  getPosition R_of_q Rxyz_of_R fuel frame w = (Spinning, w, []).
Proof.
  intros H. unfold getPosition, bind. rewrite (spin_held _ _ H). reflexivity.
Qed.
End OrientationRuns.

Lemma getDisplacement_free (fuel : nat) (w : world (vpColVector * timespec.t)) :
  odom_mutex (self w) = true ->
  getDisplacement (S fuel) REFERENCE_FRAME w
  = (Returned tt,
     World (set_pose_prev (displacement (self w)) (self w)) (ros w)
       (vec_minus (displacement (self w)) (pose_prev (self w)),
        {| timespec.tv_sec := Z.of_N (_sec (self w));
           timespec.tv_nsec := Z.of_N (_nsec (self w)) |}),
     [Acquire; Read F_displacement; Read F_sec; Read F_nsec; Release;
      Read F_pose_prev; Write F_pose_prev]).
Proof.
  intros H. unfold getDisplacement, bind. rewrite (spin_free _ _ H).
  destruct w as [r rt l]. cbn.
  rewrite (release_after_acquire r H). reflexivity.
Qed.

Lemma getDisplacement_unsupported (fuel : nat) (frame : vpControlFrameType)
  (w : world (vpColVector * timespec.t)) :
  odom_mutex (self w) = true ->
  frame <> REFERENCE_FRAME ->
  getDisplacement (S fuel) frame w
  = (Thrown (wrongStateError
               "Cannot get robot displacement in the specified control frame"),
     World (self w) (ros w)
       (fst (refs w),
        {| timespec.tv_sec := Z.of_N (_sec (self w));
           timespec.tv_nsec := Z.of_N (_nsec (self w)) |}),
     [Acquire; Read F_displacement; Read F_sec; Read F_nsec; Release]).
Proof.
  intros H F. unfold getDisplacement, bind. rewrite (spin_free _ _ H).
  rewrite (unsupported_frame F).
  destruct w as [r rt l]. cbn.
  rewrite (release_after_acquire r H). reflexivity.
Qed.

Lemma getDisplacement_held (fuel : nat) (frame : vpControlFrameType)
  (w : world (vpColVector * timespec.t)) :
  odom_mutex (self w) = false ->
  getDisplacement fuel frame w = (Spinning, w, []).
Proof.
  intros H. unfold getDisplacement, bind. rewrite (spin_held _ _ H).
  reflexivity.
Qed.

Lemma odomCallback_held {L} (fuel : nat) (msg : Odometry.t) (w : world L) :
  odom_mutex (self w) = false ->
  odomCallback fuel msg w = (Spinning, w, []).
Proof.
  intros H. unfold odomCallback, bind. rewrite (spin_held _ _ H). reflexivity.
Qed.

Lemma odomCallback_guarded {L} (fuel : nat) (msg : Odometry.t) (w : world L) :
  guarded every_field false (trace_of (odomCallback fuel msg w)) = true.
Proof.
  destruct (odom_mutex (self w)) eqn:H.
  - destruct fuel as [|fuel]; [reflexivity|].
    unfold odomCallback, bind. rewrite (spin_free _ _ H).
    destruct w as [[] rt l]. cbn.
    repeat match goal with
           | |- context [(?s =? 0)%N] => destruct (s =? 0)%N; cbn
           end; reflexivity.
  - rewrite (odomCallback_held _ _ _ H). reflexivity.
Qed.

Lemma guarded_weaken (t : list event) (held : bool) :
  guarded every_field held t = true -> guarded all_but_pose_prev held t = true.
Proof.
  revert held. induction t as [|e t IH]; intros held; [reflexivity|].
  destruct e; simpl; auto.
  - destruct held; simpl; [auto | discriminate].
  - destruct held; simpl; [auto | discriminate].
Qed.

(** ** The displacement accumulator *)

(** C1, as the code has it: for samples with strictly increasing stamps, the
    first of which is not stamped (0, 0), delivered to a new object, the
    accumulator is, row by row, the sum over the samples after the first of
    velocity times elapsed time; the first sample contributes nothing. *)
Theorem accumulator_is_weighted_sum {L} (fuel : nat) (first : Odometry.t)
  (rest : list Odometry.t) (rt : ros_runtime) (l : L) :
  is_zero_stamp (stamp_of first) = false ->
  increasing (stamp_of first) rest = true ->
  outcome_of (deliver (S fuel) (first :: rest) (fresh rt l)) = Returned tt /\
  displacement (self (world_of (deliver (S fuel) (first :: rest) (fresh rt l))))
  = integral (first :: rest).
Proof.
  intros Hz Hi.
  destruct (deliver_free fuel (first :: rest) (fresh rt l) eq_refl) as [-> ->].
  split; [reflexivity|]. cbn [self fresh].
  change (integrated_all (first :: rest) vpROSRobot_new)
    with (integrated_all rest (integrated first vpROSRobot_new)).
  rewrite (integrated_all_sum rest first); try reflexivity; trivial.
Qed.

(** The example of C1 moved to t = 1 s, 2 s, 3 s: [1,0,0,0,0,0] after the
    second sample and [1,0,0,0,0,1] after the third. *)
Lemma accumulator_is_weighted_sum_witness :
  displacement
    (self (world_of (deliver 1 (firstn 2 samples_from_one) (fresh ros_down tt))))
  = [1; 0; 0; 0; 0; 0]%float /\
  displacement
    (self (world_of (deliver 1 samples_from_one (fresh ros_down tt))))
  = [1; 0; 0; 0; 0; 1]%float.
Proof.
  split.
  - exact (proj2 (accumulator_is_weighted_sum (L:=unit) 0
                    (sample 1 0 origin at_rest)
                    [sample 2 0 origin [1; 0; 0; 0; 0; 0]%float]
                    ros_down tt eq_refl eq_refl)).
  - exact (proj2 (accumulator_is_weighted_sum (L:=unit) 0
                    (sample 1 0 origin at_rest)
                    [sample 2 0 origin [1; 0; 0; 0; 0; 0]%float;
                     sample 3 0 origin [0; 0; 0; 0; 0; 1]%float]
                    ros_down tt eq_refl eq_refl)).
Defined.

(** C1 fails on its own example: with the first sample stamped t = 0 the
    second one is not integrated, and the accumulator is still zero after
    it. *)
Lemma accumulator_after_samples_from_zero :
  displacement
    (self (world_of (deliver 1 (firstn 2 samples_from_zero) (fresh ros_down tt))))
  <> [1; 0; 0; 0; 0; 0]%float.
Proof. apply vec_eqb_neq. vm_compute. reflexivity. Qed.

Example accumulator_samples_from_zero :
  displacement
    (self (world_of (deliver 1 (firstn 2 samples_from_zero) (fresh ros_down tt))))
  = [0; 0; 0; 0; 0; 0]%float /\
  displacement
    (self (world_of (deliver 1 samples_from_zero (fresh ros_down tt))))
  = [0; 0; 0; 0; 0; 1]%float.
Proof. split; vm_compute; reflexivity. Qed.




(** C9: a sample stamped (0, 0) leaves the stored stamp as the constructor
    set it, and the sample that follows it is not integrated. *)
Theorem zero_stamp_is_the_sentinel {L} (fuel fuel' : nat)
  (msg next : Odometry.t) (w : world L) :
  odom_mutex (self w) = true ->
  is_zero_stamp (stamp_of msg) = true ->
  let w0 := world_of (odomCallback (S fuel) msg w) in
  let w1 := world_of (odomCallback (S fuel') next w0) in
  outcome_of (odomCallback (S fuel) msg w) = Returned tt /\
  (_sec (self w0), _nsec (self w0))
  = (_sec vpROSRobot_new, _nsec vpROSRobot_new) /\
  started (self w0) = false /\
  outcome_of (odomCallback (S fuel') next w0) = Returned tt /\
  displacement (self w1) = displacement (self w0).
Proof.
  intros H Hz w0 w1. subst w1 w0.
  destruct (odomCallback_free fuel msg w H) as [-> ->].
  destruct (odomCallback_free fuel' next
              (World (integrated msg (self w)) (ros w) (refs w)) eq_refl)
    as [-> ->].
  unfold is_zero_stamp in Hz. apply andb_true_iff in Hz.
  destruct Hz as [Hs Hn]. apply N.eqb_eq in Hs, Hn.
  assert (St : started (integrated msg (self w)) = false).
  { unfold started. simpl. rewrite Hs, Hn. reflexivity. }
  repeat split; trivial.
  - simpl. rewrite Hs, Hn. reflexivity.
  - cbn [self integrated displacement] in *. rewrite St. reflexivity.
Qed.

Lemma zero_stamp_is_the_sentinel_witness :
  let w0 := world_of (odomCallback 1 (sample 0 0 origin at_rest)
                        (fresh ros_down tt)) in
  let next := sample 1 0 origin [1; 0; 0; 0; 0; 0]%float in
  started (self w0) = false /\
  displacement (self (world_of (odomCallback 1 next w0)))
  = displacement (self w0).
Proof.
  pose proof (zero_stamp_is_the_sentinel 0 0 (sample 0 0 origin at_rest)
                (sample 1 0 origin [1; 0; 0; 0; 0; 0]%float)
                (fresh ros_down tt) eq_refl eq_refl) as T.
  cbv zeta in *. destruct T as (_ & _ & St & _ & D). split; assumption.
Defined.

(** ** Reading the displacement *)

Lemma vec_minus_self (d : vpColVector) :
  forallb finite d = true ->
  vec_minus d d = vpColVector_new (List.length d).
Proof.
  induction d as [|x d IH]; simpl; [reflexivity|].
  intros H. apply andb_true_iff in H. destruct H as [Hx Hd].
  rewrite (sub_self x Hx), (IH Hd). reflexivity.
Qed.

Lemma vec_minus_zero (d : vpColVector) :
  vec_minus d (vpColVector_new (List.length d)) = d.
Proof.
  induction d as [|x d IH]; simpl; [reflexivity|].
  rewrite sub_zero. unfold vpColVector_new in IH. rewrite IH. reflexivity.
Qed.

(** C4, as the code has it: with the supported frame and the flag free,
    [getDisplacement] returns accumulator minus baseline and makes the
    accumulator the new baseline; a second call with no sample in between
    returns exactly zero in every row provided the rows of the accumulator
    are finite; and the first call on an object that has only received
    samples since its construction returns the accumulator itself. *)
Theorem getDisplacement_consumes (fuel fuel' : nat)
  (w : world (vpColVector * timespec.t)) :
  odom_mutex (self w) = true ->
  let w1 := world_of (getDisplacement (S fuel) REFERENCE_FRAME w) in
  let w2 := world_of (getDisplacement (S fuel') REFERENCE_FRAME w1) in
  outcome_of (getDisplacement (S fuel) REFERENCE_FRAME w) = Returned tt /\
  fst (refs w1) = vec_minus (displacement (self w)) (pose_prev (self w)) /\
  pose_prev (self w1) = displacement (self w) /\
  displacement (self w1) = displacement (self w) /\
  outcome_of (getDisplacement (S fuel') REFERENCE_FRAME w1) = Returned tt /\
  fst (refs w2) = vec_minus (displacement (self w)) (displacement (self w)) /\
  (forallb finite (displacement (self w)) = true ->
   fst (refs w2) = vpColVector_new (List.length (displacement (self w)))) /\
  (forall fuel0 msgs rt l,
      w = world_of (deliver (S fuel0) msgs (fresh rt l)) ->
      fst (refs w1) = displacement (self w)).
Proof.
  intros H w1 w2. subst w2 w1.
  rewrite (getDisplacement_free fuel w H).
  unfold outcome_of, world_of. cbn [fst snd].
  rewrite getDisplacement_free by exact H.
  cbn [fst snd self refs].
  repeat split.
  - apply vec_minus_self.
  - intros fuel0 msgs rt l ->.
    destruct (deliver_free fuel0 msgs (fresh rt l) eq_refl) as [_ E].
    unfold world_of in E. rewrite E. cbn [self fresh].
    rewrite integrated_all_pose_prev.
    change (pose_prev vpROSRobot_new)
      with (vpColVector_new (List.length (displacement vpROSRobot_new))).
    rewrite <- (integrated_all_length msgs vpROSRobot_new).
    apply vec_minus_zero.
Qed.

(** After the samples at t = 1 s, 2 s, 3 s on a new object: the first read
    returns [1,0,0,0,0,1], the second one zero. *)
Lemma getDisplacement_consumes_witness :
  let w := world_of (deliver 1 samples_from_one
                       (fresh ros_down (@nil double, no_time))) in
  let w1 := world_of (getDisplacement 1 REFERENCE_FRAME w) in
  let w2 := world_of (getDisplacement 1 REFERENCE_FRAME w1) in
  fst (refs w1) = [1; 0; 0; 0; 0; 1]%float /\
  fst (refs w2) = [0; 0; 0; 0; 0; 0]%float.
Proof.
  pose proof (getDisplacement_consumes 0 0
                (world_of (deliver 1 samples_from_one
                             (fresh ros_down (@nil double, no_time))))
                eq_refl) as T.
  cbv zeta in *. destruct T as (_ & _ & _ & _ & _ & _ & Z & F).
  split; [| exact (Z eq_refl)].
  exact (F 0%nat samples_from_one ros_down (@nil double, no_time) eq_refl).
Defined.

(** C4 fails once a row of the accumulator has overflowed: after ten
    seconds at 2^1023 m/s the first read returns +infinity along x and the
    second one NaN, not zero. *)
Lemma getDisplacement_twice_after_overflow :
  let w := world_of (deliver 1 samples_overflowing
                       (fresh ros_down (@nil double, no_time))) in
  let w1 := world_of (getDisplacement 1 REFERENCE_FRAME w) in
  let w2 := world_of (getDisplacement 1 REFERENCE_FRAME w1) in
  fst (refs w2) <> [0; 0; 0; 0; 0; 0]%float.
Proof. cbv zeta. apply vec_eqb_neq. vm_compute. reflexivity. Qed.

Example getDisplacement_after_overflow :
  let w := world_of (deliver 1 samples_overflowing
                       (fresh ros_down (@nil double, no_time))) in
  let w1 := world_of (getDisplacement 1 REFERENCE_FRAME w) in
  let w2 := world_of (getDisplacement 1 REFERENCE_FRAME w1) in
  fst (refs w1) = [infinity; 0; 0; 0; 0; 0]%float /\
  fst (refs w2) = [nan; 0; 0; 0; 0; 0]%float.
Proof. split; vm_compute; reflexivity. Qed.

(** The overload without [timestamp] returns the same difference. *)
Lemma getDisplacement_dis_free (indeterminate : timespec.t) (fuel : nat)
  (w : world vpColVector) :
  odom_mutex (self w) = true ->
  outcome_of (getDisplacement_dis indeterminate (S fuel) REFERENCE_FRAME w)
  = Returned tt /\
  refs (world_of (getDisplacement_dis indeterminate (S fuel) REFERENCE_FRAME w))
  = vec_minus (displacement (self w)) (pose_prev (self w)) /\
  pose_prev
    (self (world_of (getDisplacement_dis indeterminate (S fuel)
                       REFERENCE_FRAME w)))
  = displacement (self w).
Proof.
  intros H. unfold getDisplacement_dis, with_local.
  rewrite getDisplacement_free by exact H. repeat split.
Qed.

(** The second half of the specification's example, one second later: a
    read between the second and the third sample returns [1,0,0,0,0,0], and
    the read after the third sample returns [0,0,0,0,0,1]. *)
Example getDisplacement_between_samples :
  let w2 := world_of (deliver 1 (firstn 2 samples_from_one)
                        (fresh ros_down (@nil double))) in
  let w2' := world_of (getDisplacement_dis no_time 1 REFERENCE_FRAME w2) in
  let w3 := world_of (deliver 1 (skipn 2 samples_from_one) w2') in
  let w3' := world_of (getDisplacement_dis no_time 1 REFERENCE_FRAME w3) in
  refs w2' = [1; 0; 0; 0; 0; 0]%float /\
  displacement (self w3) = [1; 0; 0; 0; 0; 1]%float /\
  refs w3' = [0; 0; 0; 0; 0; 1]%float.
Proof. repeat split; vm_compute; reflexivity. Qed.

(** C10: with an unsupported frame and the flag free, the call throws
    [wrongStateError], the caller's [timestamp] holds the stored stamp, and
    the caller's [dis] is as it was. *)
Theorem getDisplacement_unsupported_frame_writes_timestamp (fuel : nat)
  (frame : vpControlFrameType) (w : world (vpColVector * timespec.t)) :
  odom_mutex (self w) = true ->
  frame <> REFERENCE_FRAME ->
  let w' := world_of (getDisplacement (S fuel) frame w) in
  outcome_of (getDisplacement (S fuel) frame w)
  = Thrown (wrongStateError
              "Cannot get robot displacement in the specified control frame") /\
  snd (refs w') = {| timespec.tv_sec := Z.of_N (_sec (self w));
                     timespec.tv_nsec := Z.of_N (_nsec (self w)) |} /\
  fst (refs w') = fst (refs w).
Proof.
  intros H F w'. subst w'. rewrite (getDisplacement_unsupported fuel w H F).
  repeat split.
Qed.

(** After the samples at t = 1 s and 2.5 s, a caller's timestamp of (7, 7)
    has become (2, 500000000) although the call threw. *)
Lemma getDisplacement_unsupported_frame_writes_timestamp_witness :
  let w := world_of (deliver 1 samples_to_2500ms
                       (fresh ros_down (at_rest, timespec.Build 7 7))) in
  let w' := world_of (getDisplacement 1 CAMERA_FRAME w) in
  outcome_of (getDisplacement 1 CAMERA_FRAME w)
  = Thrown (wrongStateError
              "Cannot get robot displacement in the specified control frame") /\
  snd (refs w') = timespec.Build 2 500000000 /\
  fst (refs w') = at_rest.
Proof.
  apply (getDisplacement_unsupported_frame_writes_timestamp 0
           (frame := CAMERA_FRAME)
           (world_of (deliver 1 samples_to_2500ms
                        (fresh ros_down (at_rest, timespec.Build 7 7))))).
  - reflexivity.
  - discriminate.
Defined.

(** C10 fails once [getPosition] has thrown: after the samples at 1 s and
    2.5 s and a [getPosition] in the camera frame, no amount of fuel makes
    [getDisplacement] in the camera frame throw, and the caller's timestamp
    never becomes the stored stamp (2, 500000000). *)
Lemma getDisplacement_waits_after_rejected_getPosition :
  let r := self (world_of
                   (getPosition (fun q : vpQuaternionVector => q)
                      (fun R => firstn 3 R) 1 CAMERA_FRAME
                      (world_of (deliver 1 samples_to_2500ms
                                   (fresh ros_down []))))) in
  let w := World r ros_down (at_rest, timespec.Build 7 7) in
  (_sec r, _nsec r) = (2%N, 500000000%N) /\
  (~ exists fuel e,
       outcome_of (getDisplacement fuel CAMERA_FRAME w) = Thrown e) /\
  (~ exists fuel,
       snd (refs (world_of (getDisplacement fuel CAMERA_FRAME w)))
       = timespec.Build 2 500000000).
Proof.
  cbv zeta. split; [reflexivity|]. split.
  - intros (fuel & e & H).
    rewrite getDisplacement_held in H by reflexivity. discriminate H.
  - intros (fuel & H).
    rewrite getDisplacement_held in H by reflexivity. discriminate H.
Qed.

(** ** Reading the position *)

Lemma integrated_all_last (msgs : list Odometry.t) (last : Odometry.t)
  (r : vpROSRobot) :
  integrated_all (msgs ++ [last]) r = integrated last (integrated_all msgs r).
Proof. unfold integrated_all. rewrite fold_left_app. reflexivity. Qed.



(** ** The flag *)

(** C2 fails in the code: [getPosition] with an unsupported frame throws
    with the flag still taken, and from then on [getPosition],
    [getDisplacement] and [odomCallback] spin whatever fuel they get. *)
Theorem getPosition_unsupported_frame_keeps_flag (vpRotationMatrix : Type)
  (R_of_q : vpQuaternionVector -> vpRotationMatrix)
  (Rxyz_of_R : vpRotationMatrix -> vpColVector)
  (fuel : nat) (frame : vpControlFrameType) (w : world vpColVector) :
  odom_mutex (self w) = true ->
  frame <> REFERENCE_FRAME ->
  let w' := world_of (getPosition R_of_q Rxyz_of_R (S fuel) frame w) in
  outcome_of (getPosition R_of_q Rxyz_of_R (S fuel) frame w)
  = Thrown (wrongStateError
              "Cannot get the robot position in the specified control frame") /\
  odom_mutex (self w') = false /\
  (forall fuel' frame',
      outcome_of (getPosition R_of_q Rxyz_of_R fuel' frame' w') = Spinning) /\
  (forall fuel' frame' l,
      outcome_of (getDisplacement fuel' frame' (World (self w') (ros w') l))
      = Spinning) /\
  (forall fuel' msg, outcome_of (odomCallback fuel' msg w') = Spinning).
Proof.
  intros H F w'. subst w'. rewrite (getPosition_unsupported _ _ fuel w H F).
  unfold outcome_of, world_of. cbn [fst snd self ros].
  repeat split.
  - intros fuel' frame'. rewrite getPosition_held; reflexivity.
  - intros fuel' frame' l. rewrite getDisplacement_held; reflexivity.
  - intros fuel' msg. rewrite odomCallback_held; reflexivity.
Qed.

Lemma getPosition_unsupported_frame_keeps_flag_witness :
  let w' := world_of (getPosition (fun q : vpQuaternionVector => q)
                        (fun R => firstn 3 R) 1 CAMERA_FRAME
                        (fresh ros_down [])) in
  odom_mutex (self w') = false /\
  outcome_of (getPosition (fun q : vpQuaternionVector => q)
                (fun R => firstn 3 R) 1000 REFERENCE_FRAME w') = Spinning.
Proof.
  pose proof (getPosition_unsupported_frame_keeps_flag
                (fun q : vpQuaternionVector => q) (fun R => firstn 3 R) 0
                (frame := CAMERA_FRAME) (fresh ros_down []) eq_refl) as T.
  cbv zeta in *. destruct T as (_ & Hf & Hp & _ & _); [discriminate|].
  split; [exact Hf | exact (Hp 1000%nat REFERENCE_FRAME)].
Defined.

(** C3, as the code has it: in [odomCallback], [getPosition] and
    [getDisplacement] every access to [p], [q], [_sec], [_nsec] and
    [displacement] falls between taking and releasing the flag;
    [getDisplacement] reads and writes [pose_prev] after it has released
    the flag. *)
Theorem odometry_accessed_under_flag {L} (vpRotationMatrix : Type)
  (R_of_q : vpQuaternionVector -> vpRotationMatrix)
  (Rxyz_of_R : vpRotationMatrix -> vpColVector)
  (fuel : nat) (frame : vpControlFrameType) (msg : Odometry.t)
  (w1 : world L) (w2 : world vpColVector)
  (w3 : world (vpColVector * timespec.t)) :
  guarded all_but_pose_prev false (trace_of (odomCallback fuel msg w1)) = true /\
  guarded all_but_pose_prev false
    (trace_of (getPosition R_of_q Rxyz_of_R fuel frame w2)) = true /\
  guarded all_but_pose_prev false (trace_of (getDisplacement fuel frame w3))
  = true /\
  (odom_mutex (self w3) = true ->
   trace_of (getDisplacement (S fuel) REFERENCE_FRAME w3)
   = [Acquire; Read F_displacement; Read F_sec; Read F_nsec; Release;
      Read F_pose_prev; Write F_pose_prev]).
Proof.
  split; [apply guarded_weaken, odomCallback_guarded|].
  split; [|split].
  - destruct (odom_mutex (self w2)) eqn:H.
    + destruct fuel as [|fuel]; [reflexivity|].
      destruct frame;
        [rewrite getPosition_free by exact H; reflexivity
        | rewrite getPosition_unsupported by (trivial; discriminate);
          reflexivity ..].
    + rewrite getPosition_held by exact H. reflexivity.
  - destruct (odom_mutex (self w3)) eqn:H.
    + destruct fuel as [|fuel]; [reflexivity|].
      destruct frame;
        [rewrite getDisplacement_free by exact H; reflexivity
        | rewrite getDisplacement_unsupported by (trivial; discriminate);
          reflexivity ..].
    + rewrite getDisplacement_held by exact H. reflexivity.
  - intros H. rewrite getDisplacement_free by exact H. reflexivity.
Qed.

Lemma odometry_accessed_under_flag_witness :
  guarded all_but_pose_prev false
    (trace_of (odomCallback 1 sample_back_at_2s
                 (world_of (deliver 1 samples_to_2500ms (fresh ros_down tt)))))
  = true /\
  trace_of (getDisplacement 1 REFERENCE_FRAME (fresh ros_down (at_rest, no_time)))
  = [Acquire; Read F_displacement; Read F_sec; Read F_nsec; Release;
     Read F_pose_prev; Write F_pose_prev].
Proof.
  pose proof (odometry_accessed_under_flag (fun q : vpQuaternionVector => q)
                (fun R => firstn 3 R) 0 REFERENCE_FRAME sample_back_at_2s
                (world_of (deliver 1 samples_to_2500ms (fresh ros_down tt)))
                (fresh ros_down []) (fresh ros_down (at_rest, no_time))) as T.
  pose proof (odometry_accessed_under_flag (fun q : vpQuaternionVector => q)
                (fun R => firstn 3 R) 1 REFERENCE_FRAME sample_back_at_2s
                (world_of (deliver 1 samples_to_2500ms (fresh ros_down tt)))
                (fresh ros_down []) (fresh ros_down (at_rest, no_time))) as U.
  destruct T as (_ & _ & _ & Ht). destruct U as (Ho & _).
  split; [exact Ho | exact (Ht eq_refl)].
Defined.

(** C3 fails for [pose_prev]: [getDisplacement] touches it with the flag
    released. *)
Lemma getDisplacement_touches_pose_prev_unguarded :
  guarded every_field false
    (trace_of (getDisplacement 1 REFERENCE_FRAME
                 (fresh ros_down (at_rest, no_time)))) = false.
Proof. reflexivity. Qed.

(** What the callback does to the record, on a first and on a later
    sample. *)
Example odomCallback_traces :
  trace_of (odomCallback 1 (sample 1 0 origin at_rest) (fresh ros_down tt))
  = [Acquire; Write F_p; Write F_q; Read F_sec; Read F_nsec;
     Write F_sec; Write F_nsec; Release] /\
  trace_of (odomCallback 1 sample_back_at_2s
              (world_of (deliver 1 samples_to_2500ms (fresh ros_down tt))))
  = [Acquire; Write F_p; Write F_q; Read F_sec; Read F_sec; Read F_nsec;
     Read F_displacement; Write F_displacement;
     Read F_displacement; Write F_displacement;
     Read F_displacement; Write F_displacement;
     Read F_displacement; Write F_displacement;
     Read F_displacement; Write F_displacement;
     Read F_displacement; Write F_displacement;
     Write F_sec; Write F_nsec; Release].
Proof. split; reflexivity. Qed.

(** ** Unsupported frames *)

(** C5: with a frame other than the reference frame, [setVelocity],
    [getPosition] and [getDisplacement] (the flag being free for the last
    two) throw [wrongStateError] and leave [p], [q], [_sec], [_nsec],
    [displacement] and [pose_prev] as they were. *)
Theorem unsupported_frame_is_rejected {L} (vpRotationMatrix : Type)
  (R_of_q : vpQuaternionVector -> vpRotationMatrix)
  (Rxyz_of_R : vpRotationMatrix -> vpColVector)
  (fuel : nat) (frame : vpControlFrameType) (vel : vpColVector)
  (w1 : world L) (w2 : world vpColVector)
  (w3 : world (vpColVector * timespec.t)) :
  frame <> REFERENCE_FRAME ->
  odom_mutex (self w2) = true ->
  odom_mutex (self w3) = true ->
  (outcome_of (setVelocity frame vel w1)
   = Thrown (wrongStateError
               "Cannot send the robot velocity in the specified control frame") /\
   world_of (setVelocity frame vel w1) = w1) /\
  (outcome_of (getPosition R_of_q Rxyz_of_R (S fuel) frame w2)
   = Thrown (wrongStateError
               "Cannot get the robot position in the specified control frame") /\
   odometry_record
     (self (world_of (getPosition R_of_q Rxyz_of_R (S fuel) frame w2)))
   = odometry_record (self w2)) /\
  (outcome_of (getDisplacement (S fuel) frame w3)
   = Thrown (wrongStateError
               "Cannot get robot displacement in the specified control frame") /\
   odometry_record (self (world_of (getDisplacement (S fuel) frame w3)))
   = odometry_record (self w3)).
Proof.
  intros F H2 H3. split; [|split].
  - unfold setVelocity. rewrite (unsupported_frame F). split; reflexivity.
  - rewrite (getPosition_unsupported _ _ fuel w2 H2 F). split; reflexivity.
  - rewrite (getDisplacement_unsupported fuel w3 H3 F). split; reflexivity.
Qed.

Lemma unsupported_frame_is_rejected_witness :
  let w := world_of (deliver 1 samples_from_one
                       (fresh ros_down (at_rest, no_time))) in
  outcome_of (getDisplacement 1 MIXT_FRAME w)
  = Thrown (wrongStateError
              "Cannot get robot displacement in the specified control frame") /\
  odometry_record (self (world_of (getDisplacement 1 MIXT_FRAME w)))
  = odometry_record (self w).
Proof.
  pose proof (unsupported_frame_is_rejected (fun q : vpQuaternionVector => q)
                (fun R => firstn 3 R) 0 (frame := MIXT_FRAME) at_rest
                (fresh ros_down tt) (fresh ros_down [])
                (world_of (deliver 1 samples_from_one
                             (fresh ros_down (at_rest, no_time))))) as T.
  destruct T as (_ & _ & T); [discriminate | reflexivity | reflexivity |].
  exact T.
Defined.

(** C5 fails once [getPosition] has thrown: on a new object, after a first
    [getPosition] in the camera frame, no amount of fuel makes a second one
    throw. *)
Lemma getPosition_waits_after_rejected_getPosition :
  let w := world_of (getPosition (fun q : vpQuaternionVector => q)
                       (fun R => firstn 3 R) 1 CAMERA_FRAME
                       (fresh ros_down [])) in
  ~ exists fuel e,
      outcome_of (getPosition (fun q : vpQuaternionVector => q)
                    (fun R => firstn 3 R) fuel CAMERA_FRAME w) = Thrown e.
Proof.
  cbv zeta. intros (fuel & e & H).
  rewrite getPosition_held in H by reflexivity. discriminate H.
Qed.

(** ** Initialisation *)

Lemma string_eqb_neq (a b : string) : a <> b -> String.eqb a b = false.
Proof. intros H. apply String.eqb_neq. exact H. Qed.

(** C7: when the ROS runtime is initialised with a master other than
    [_master_uri], [init()] throws [constructionError] and changes nothing:
    an object that was not initialised is still not, and no publisher or
    subscriber has been created. *)
Theorem init_rejects_other_master {L} (w : world L) :
  ros_isInitialized (ros w) = true ->
  ros_master_URI (ros w) <> _master_uri (self w) ->
  outcome_of (init w)
  = Thrown (constructionError
              (different_master_URI (ros_master_URI (ros w))
                 (_master_uri (self w)))) /\
  world_of (init w) = w /\
  (isInitialized (self w) = false ->
   isInitialized (self (world_of (init w))) = false) /\
  cmdvel (self (world_of (init w))) = cmdvel (self w) /\
  odom (self (world_of (init w))) = odom (self w) /\
  ros_advertised (ros (world_of (init w))) = ros_advertised (ros w) /\
  ros_subscribed (ros (world_of (init w))) = ros_subscribed (ros w).
Proof.
  intros Hi Hu.
  assert (E : init w
              = (Thrown (constructionError
                           (different_master_URI (ros_master_URI (ros w))
                              (_master_uri (self w)))), w, [])).
  { unfold init, bind, runtime, member. rewrite Hi, (string_eqb_neq Hu).
    reflexivity. }
  rewrite E. repeat split. intros H. exact H.
Qed.

Lemma init_rejects_other_master_witness :
  outcome_of (init (fresh ros_elsewhere tt))
  = Thrown (constructionError
              "ROS already initialised with a different master_URI (http://10.0.0.1:11311 != http://127.0.0.1:11311)") /\
  isInitialized (self (world_of (init (fresh ros_elsewhere tt)))) = false /\
  cmdvel (self (world_of (init (fresh ros_elsewhere tt)))) = None.
Proof.
  pose proof (init_rejects_other_master (fresh ros_elsewhere tt) eq_refl) as T.
  destruct T as (To & _ & Ti & Tc & _); [discriminate|].
  split; [exact To | split; [exact (Ti eq_refl) | exact Tc]].
Defined.

(** Without a conflict, [init()] on an object that is not initialised
    writes through the pointers of [argv] before they have a value, and
    never gets to [init(argc, argv)]. *)
Example init_writes_through_unset_pointers :
  init (fresh ros_down tt) = (Undefined, fresh ros_down tt, []).
Proof. reflexivity. Qed.

(** ** Further properties of the member functions *)

(** X1. [init(argc, argv)] on an object that is not initialised returns
    with the object initialised: node handle and spinner in place, the
    publisher on [_nodespace + _topic_cmd], the subscriber on
    [_nodespace + _topic_odom], both topics registered last with ROS; the
    flag and the odometry record are as before, and a ROS runtime that was
    already initialised keeps its master. *)
Theorem init_argv_connects {L} (argv : list string) (w : world L) :
  isInitialized (self w) = false ->
  let w' := world_of (init_argv argv w) in
  let cmd := (_nodespace (self w) ++ _topic_cmd (self w))%string in
  let sub := (_nodespace (self w) ++ _topic_odom (self w))%string in
  outcome_of (init_argv argv w) = Returned tt /\
  isInitialized (self w') = true /\
  n (self w') = true /\ spinner (self w') = true /\
  cmdvel (self w') = Some cmd /\ odom (self w') = Some sub /\
  ros_isInitialized (ros w') = true /\
  ros_advertised (ros w') = ros_advertised (ros w) ++ [cmd] /\
  ros_subscribed (ros w') = ros_subscribed (ros w) ++ [sub] /\
  ros_outbox (ros w') = ros_outbox (ros w) /\
  odom_mutex (self w') = odom_mutex (self w) /\
  odometry_record (self w') = odometry_record (self w) /\
  (ros_isInitialized (ros w) = true ->
   ros_master_URI (ros w') = ros_master_URI (ros w)).
Proof.
  intros H. destruct w as [r rt l]. destruct r, rt. simpl in H. subst.
  unfold init_argv, bind, member, runtime. cbn.
  match goal with
  | |- context [negb ?b] => destruct b
  end; cbn; repeat split; intros; try discriminate; reflexivity.
Qed.

Lemma init_argv_connects_witness :
  let w' := world_of (init_argv ["visp"%string] (fresh ros_elsewhere tt)) in
  isInitialized (self w') = true /\
  cmdvel (self w') = Some "cmd_vel"%string /\
  ros_subscribed (ros w') = ["odom"%string] /\
  ros_master_URI (ros w') = "http://10.0.0.1:11311"%string.
Proof.
  pose proof (init_argv_connects ["visp"%string] (fresh ros_elsewhere tt)
                eq_refl) as T.
  cbv zeta in T.
  destruct T as (_ & Hi & _ & _ & Hc & _ & _ & _ & Hs & _ & _ & _ & Hm).
  split; [exact Hi | split; [exact Hc | split; [exact Hs | exact (Hm eq_refl)]]].
Defined.

(** X2. A second call of [init(argc, argv)] returns and changes nothing,
    whatever the arguments of the two calls and whatever the object and
    the ROS runtime were before the first. *)
Theorem init_argv_idempotent {L} (argv argv' : list string) (w : world L) :
  init_argv argv' (world_of (init_argv argv w))
  = (Returned tt, world_of (init_argv argv w), []).
Proof.
  destruct w as [r rt l].
  destruct r as [n0 c0 o0 s0 initialized q0 p0 pp0 d0 sec0 nsec0 m0 mu tc to ns].
  destruct rt as [ros_up uri adv sub out].
  destruct initialized, ros_up; reflexivity.
Qed.

(** X3. [init()] on an initialised object does nothing when ROS is not
    initialised or runs with the master of the object. *)
Theorem init_initialised_is_noop {L} (w : world L) :
  isInitialized (self w) = true ->
  ros_isInitialized (ros w) = false
  \/ ros_master_URI (ros w) = _master_uri (self w) ->
  init w = (Returned tt, w, []).
Proof.
  intros Hi Hm. destruct w as [r rt l]. destruct r, rt. simpl in Hi, Hm.
  subst. unfold init, bind, member, runtime. cbn.
  destruct Hm as [Hm | Hm]; subst; cbn; [reflexivity|].
  rewrite String.eqb_refl, andb_false_r. reflexivity.
Qed.

Lemma init_initialised_is_noop_witness :
  let w := world_of (init_argv ["visp"%string; "__master:=http://127.0.0.1:11311"%string]
                       (fresh ros_down tt)) in
  ros_master_URI (ros w) = "http://127.0.0.1:11311"%string /\
  init w = (Returned tt, w, []).
Proof.
  split; [reflexivity|].
  apply (init_initialised_is_noop
           (world_of (init_argv ["visp"%string;
                                 "__master:=http://127.0.0.1:11311"%string]
                        (fresh ros_down tt)))).
  - reflexivity.
  - right. reflexivity.
Defined.

(** X4. After [init(argc, argv)] on an object that was not initialised,
    [setVelocity] in the reference frame returns without looking at the
    flag, queues exactly one message on [_nodespace + _topic_cmd], linear
    part [vel[0..2]] and angular part [vel[3..5]], behind those already
    queued, and leaves the object as it is. *)
Theorem setVelocity_publishes {L} (argv : list string) (vel : vpColVector)
  (w : world L) :
  isInitialized (self w) = false ->
  let w1 := world_of (init_argv argv w) in
  let w2 := world_of (setVelocity REFERENCE_FRAME vel w1) in
  outcome_of (setVelocity REFERENCE_FRAME vel w1) = Returned tt /\
  ros_outbox (ros w2)
  = ros_outbox (ros w)
      ++ [((_nodespace (self w) ++ _topic_cmd (self w))%string, twist_of vel)] /\
  self w2 = self w1 /\
  trace_of (setVelocity REFERENCE_FRAME vel w1) = [].
Proof.
  intros H. destruct w as [r rt l]. destruct r, rt. simpl in H. subst.
  unfold init_argv, setVelocity, bind, member, runtime. cbn.
  match goal with
  | |- context [negb ?b] => destruct b
  end; cbn; repeat split.
Qed.

Lemma setVelocity_publishes_witness :
  let w1 := world_of (init_argv [] (fresh ros_down tt)) in
  let w2 := world_of (setVelocity REFERENCE_FRAME [1; 2; 3; 4; 5; 6]%float w1) in
  ros_outbox (ros w2)
  = [("cmd_vel"%string, twist_of [1; 2; 3; 4; 5; 6]%float)].
Proof.
  pose proof (setVelocity_publishes [] [1; 2; 3; 4; 5; 6]%float
                (fresh ros_down tt) eq_refl) as T.
  cbv zeta in T. destruct T as (_ & T & _). exact T.
Defined.

(** X5. [getPosition] in the reference frame is a read: it leaves the
    object and the ROS runtime as they are, gives [pose] six rows whatever
    the caller's vector held, and gives the same answer when called again. *)
Theorem getPosition_is_a_read (vpRotationMatrix : Type)
  (R_of_q : vpQuaternionVector -> vpRotationMatrix)
  (Rxyz_of_R : vpRotationMatrix -> vpColVector)
  (fuel fuel' : nat) (pose' : vpColVector) (w : world vpColVector) :
  odom_mutex (self w) = true ->
  let w1 := world_of (getPosition R_of_q Rxyz_of_R (S fuel) REFERENCE_FRAME w) in
  outcome_of (getPosition R_of_q Rxyz_of_R (S fuel) REFERENCE_FRAME w)
  = Returned tt /\
  self w1 = self w /\ ros w1 = ros w /\
  List.length (refs w1) = 6%nat /\
  getPosition R_of_q Rxyz_of_R (S fuel') REFERENCE_FRAME
    (World (self w1) (ros w1) pose')
  = (Returned tt, w1, [Acquire; Read F_p; Read F_p; Read F_p; Read F_q; Release]).
Proof.
  intros H w1. subst w1. rewrite getPosition_free by exact H.
  unfold outcome_of, world_of. cbn [fst snd self ros refs].
  rewrite getPosition_free by exact H. repeat split.
Qed.

Lemma getPosition_is_a_read_witness :
  let w := world_of (deliver 1 [sample 2 0 [4; 5; 6]%float at_rest]
                       (fresh ros_down [])) in
  let w1 := world_of (getPosition (fun q : vpQuaternionVector => q)
                        (fun R => firstn 3 R) 1 REFERENCE_FRAME w) in
  refs w1 = [4; 5; 6; 0; 0; 0]%float /\
  getPosition (fun q : vpQuaternionVector => q)
    (fun R => firstn 3 R) 1 REFERENCE_FRAME
    (World (self w1) (ros w1) [7; 7]%float)
  = (Returned tt, w1, [Acquire; Read F_p; Read F_p; Read F_p; Read F_q; Release]).
Proof.
  pose proof (getPosition_is_a_read (fun q : vpQuaternionVector => q)
                (fun R => firstn 3 R) 0 0 [7; 7]%float
                (world_of (deliver 1 [sample 2 0 [4; 5; 6]%float at_rest]
                             (fresh ros_down [])))
                eq_refl) as T.
  cbv zeta in T. destruct T as (_ & _ & _ & _ & T).
  cbv zeta. split; [vm_compute; reflexivity | exact T].
Defined.

Lemma integrated_set_pose_prev (msg : Odometry.t) (d : vpColVector)
  (r : vpROSRobot) :
  integrated msg (set_pose_prev d r) = set_pose_prev d (integrated msg r).
Proof. reflexivity. Qed.

Lemma integrated_all_set_pose_prev (msgs : list Odometry.t) (d : vpColVector)
  (r : vpROSRobot) :
  integrated_all msgs (set_pose_prev d r)
  = set_pose_prev d (integrated_all msgs r).
Proof.
  revert r. induction msgs as [|msg rest IH]; intros r; [reflexivity|].
  simpl. rewrite integrated_set_pose_prev. apply IH.
Qed.

(** X6. A read of the displacement, then samples, then a second read: the
    second read returns the accumulator as the samples leave it minus the
    accumulator at the first read, and the first read has not changed what
    the samples accumulate. *)
Theorem getDisplacement_since_previous_read (fuel : nat)
  (msgs : list Odometry.t) (w : world (vpColVector * timespec.t)) :
  odom_mutex (self w) = true ->
  let w1 := world_of (getDisplacement (S fuel) REFERENCE_FRAME w) in
  let w2 := world_of (deliver (S fuel) msgs w1) in
  let w3 := world_of (getDisplacement (S fuel) REFERENCE_FRAME w2) in
  outcome_of (deliver (S fuel) msgs w1) = Returned tt /\
  outcome_of (getDisplacement (S fuel) REFERENCE_FRAME w2) = Returned tt /\
  displacement (self w2)
  = displacement (self (world_of (deliver (S fuel) msgs w))) /\
  fst (refs w3) = vec_minus (displacement (self w2)) (displacement (self w)).
Proof.
  intros H w1 w2 w3. subst w3 w2 w1.
  assert (E1 : world_of (getDisplacement (S fuel) REFERENCE_FRAME w)
               = World (set_pose_prev (displacement (self w)) (self w)) (ros w)
                   (vec_minus (displacement (self w)) (pose_prev (self w)),
                    {| timespec.tv_sec := Z.of_N (_sec (self w));
                       timespec.tv_nsec := Z.of_N (_nsec (self w)) |}))
    by (rewrite getDisplacement_free by exact H; reflexivity).
  rewrite E1.
  destruct (deliver_free fuel msgs
              (World (set_pose_prev (displacement (self w)) (self w)) (ros w)
                 (vec_minus (displacement (self w)) (pose_prev (self w)),
                  {| timespec.tv_sec := Z.of_N (_sec (self w));
                     timespec.tv_nsec := Z.of_N (_nsec (self w)) |}))
              H) as [Ho Hw].
  rewrite Ho, Hw. cbn [self ros refs].
  destruct (deliver_free fuel msgs w H) as [_ Hw']. rewrite Hw'. cbn [self].
  rewrite integrated_all_set_pose_prev.
  rewrite getDisplacement_free
    by (cbn [self]; exact (integrated_all_free msgs (self w) H)).
  repeat split.
Qed.

Lemma getDisplacement_since_previous_read_witness :
  let w := world_of (deliver 1 (firstn 2 samples_from_one)
                       (fresh ros_down (@nil double, no_time))) in
  let w1 := world_of (getDisplacement 1 REFERENCE_FRAME w) in
  let w2 := world_of (deliver 1 (skipn 2 samples_from_one) w1) in
  let w3 := world_of (getDisplacement 1 REFERENCE_FRAME w2) in
  fst (refs w3) = [0; 0; 0; 0; 0; 1]%float.
Proof.
  pose proof (getDisplacement_since_previous_read 0
                (skipn 2 samples_from_one)
                (world_of (deliver 1 (firstn 2 samples_from_one)
                             (fresh ros_down (@nil double, no_time))))
                eq_refl) as T.
  cbv zeta in T. destruct T as (_ & _ & _ & T). exact T.
Defined.

(** X7. Whatever the frame, [getDisplacement] called after a sample writes
    the stamp of the last sample into the caller's [timestamp]. *)
Theorem getDisplacement_reports_last_stamp (fuel : nat)
  (frame : vpControlFrameType) (msgs : list Odometry.t) (last : Odometry.t)
  (w : world (vpColVector * timespec.t)) :
  odom_mutex (self w) = true ->
  let w' := world_of (deliver (S fuel) (msgs ++ [last]) w) in
  snd (refs (world_of (getDisplacement (S fuel) frame w')))
  = {| timespec.tv_sec := Z.of_N (Time.sec (stamp_of last));
       timespec.tv_nsec := Z.of_N (Time.nsec (stamp_of last)) |}.
Proof.
  intros H w'. subst w'.
  destruct (deliver_free fuel (msgs ++ [last]) w H) as [_ Hw]. rewrite Hw.
  assert (F : odom_mutex
                (self (World (integrated_all (msgs ++ [last]) (self w))
                         (ros w) (refs w))) = true)
    by (cbn [self]; exact (integrated_all_free _ _ H)).
  destruct frame;
    [rewrite getDisplacement_free by exact F
    | rewrite getDisplacement_unsupported by (trivial; discriminate) ..];
    unfold world_of; cbn [fst snd self refs];
    rewrite integrated_all_last; reflexivity.
Qed.

Lemma getDisplacement_reports_last_stamp_witness :
  let w' := world_of (deliver 1 samples_to_2500ms
                        (fresh ros_down (at_rest, no_time))) in
  snd (refs (world_of (getDisplacement 1 REFERENCE_FRAME w')))
  = timespec.Build 2 500000000.
Proof.
  exact (getDisplacement_reports_last_stamp 0 REFERENCE_FRAME
           [sample 1 0 origin at_rest]
           (sample 2 500000000 origin [1; 0; 0; 0; 0; 0]%float)
           (fresh ros_down (at_rest, no_time)) eq_refl).
Defined.

(** X8. The overload of [getDisplacement] without [timestamp] ends like
    the one with it, with the same [dis], object and accesses, and nothing
    of this depends on what its automatic [timestamp] holds at first. *)
Theorem getDisplacement_dis_ignores_timestamp (indeterminate ts : timespec.t)
  (fuel : nat) (frame : vpControlFrameType) (w : world vpColVector) :
  let r := getDisplacement fuel frame (World (self w) (ros w) (refs w, ts)) in
  getDisplacement_dis indeterminate fuel frame w
  = (outcome_of r,
     World (self (world_of r)) (ros (world_of r)) (fst (refs (world_of r))),
     trace_of r).
Proof.
  cbv zeta. unfold getDisplacement_dis, with_local.
  destruct fuel as [|fuel]; [reflexivity|].
  destruct (odom_mutex (self w)) eqn:H.
  - destruct frame;
      [rewrite !getDisplacement_free by exact H
      | rewrite !getDisplacement_unsupported by (trivial; discriminate) ..];
      reflexivity.
  - rewrite !getDisplacement_held by exact H. reflexivity.
Qed.

Lemma started_is_not_zero_stamp (r : vpROSRobot) :
  started r = negb (is_zero_stamp (Time.Build (_sec r) (_nsec r))).
Proof. unfold started, is_zero_stamp. simpl. rewrite negb_andb. reflexivity. Qed.

Lemma integrated_all_gated (msgs : list Odometry.t) (r : vpROSRobot) :
  List.length (displacement r) = 6%nat ->
  displacement (integrated_all msgs r)
  = map (fun i => gated_sum i (Time.Build (_sec r) (_nsec r)) msgs
                    (vec_get (displacement r) i))
      (seq 0 6).
Proof.
  revert r. induction msgs as [|cur rest IH]; intros r Hl.
  - change (integrated_all [] r) with r.
    destruct (displacement r) as [|d0 [|d1 [|d2 [|d3 [|d4 [|d5 [|]]]]]]];
      try discriminate. reflexivity.
  - change (integrated_all (cur :: rest) r)
      with (integrated_all rest (integrated cur r)).
    assert (Hl' : List.length (displacement (integrated cur r)) = 6%nat).
    { simpl. destruct (started r); [rewrite accumulate_length|]; exact Hl. }
    rewrite (IH _ Hl'). apply map_seq_6. intros i Hi. cbn [gated_sum].
    replace (Time.Build (_sec (integrated cur r)) (_nsec (integrated cur r)))
      with (stamp_of cur) by (simpl; destruct (stamp_of cur); reflexivity).
    f_equal. cbn [integrated displacement].
    rewrite (started_is_not_zero_stamp r).
    destruct (is_zero_stamp (Time.Build (_sec r) (_nsec r))); cbn [negb];
      [reflexivity|].
    rewrite accumulate_rows by exact Hl.
    rewrite vec_get_map_seq_6 by exact Hi. reflexivity.
Qed.

(** X9. For any samples at all, delivered to an object whose flag is free
    and whose accumulator has six rows, each row of the accumulator ends as
    the sum in which a sample adds velocity times elapsed time unless the
    stamp stored before it is (0, 0); the stamps need not increase. *)
Theorem accumulator_is_gated_sum {L} (fuel : nat) (msgs : list Odometry.t)
  (w : world L) :
  odom_mutex (self w) = true ->
  List.length (displacement (self w)) = 6%nat ->
  outcome_of (deliver (S fuel) msgs w) = Returned tt /\
  displacement (self (world_of (deliver (S fuel) msgs w)))
  = map (fun i =>
           gated_sum i (Time.Build (_sec (self w)) (_nsec (self w))) msgs
             (vec_get (displacement (self w)) i))
      (seq 0 6).
Proof.
  intros H Hl. destruct (deliver_free fuel msgs w H) as [-> ->].
  split; [reflexivity|]. cbn [self]. apply integrated_all_gated, Hl.
Qed.

(** Samples stamped 5 s, 0 s, 3 s and 1 s with 1 m/s along x: the second
    takes 5 m off, the third is skipped, the fourth takes 2 m off. *)
Lemma accumulator_is_gated_sum_witness :
  displacement
    (self (world_of
             (deliver 1 [sample 5 0 origin [1; 0; 0; 0; 0; 0]%float;
                         sample 0 0 origin [1; 0; 0; 0; 0; 0]%float;
                         sample 3 0 origin [1; 0; 0; 0; 0; 0]%float;
                         sample 1 0 origin [1; 0; 0; 0; 0; 0]%float]
                (fresh ros_down tt))))
  = [-7; 0; 0; 0; 0; 0]%float.
Proof.
  exact (proj2 (accumulator_is_gated_sum 0
                  [sample 5 0 origin [1; 0; 0; 0; 0; 0]%float;
                   sample 0 0 origin [1; 0; 0; 0; 0; 0]%float;
                   sample 3 0 origin [1; 0; 0; 0; 0; 0]%float;
                   sample 1 0 origin [1; 0; 0; 0; 0; 0]%float]
                  (fresh ros_down tt) eq_refl eq_refl)).
Defined.

(** X10. [odomCallback] never throws: it returns when it finds the flag
    free, and otherwise spins without changing or accessing anything. *)
Theorem odomCallback_returns_or_spins {L} (fuel : nat) (msg : Odometry.t)
  (w : world L) :
  (odom_mutex (self w) = true ->
   outcome_of (odomCallback (S fuel) msg w) = Returned tt /\
   odom_mutex (self (world_of (odomCallback (S fuel) msg w))) = true) /\
  (odom_mutex (self w) = false ->
   odomCallback fuel msg w = (Spinning, w, [])) /\
  (forall e, outcome_of (odomCallback fuel msg w) <> Thrown e).
Proof.
  split; [|split].
  - intros H. destruct (odomCallback_free fuel msg w H) as [-> ->].
    split; reflexivity.
  - apply odomCallback_held.
  - intros e. destruct (odom_mutex (self w)) eqn:H.
    + destruct fuel as [|fuel]; [discriminate|].
      destruct (odomCallback_free fuel msg w H) as [-> _]. discriminate.
    + rewrite odomCallback_held by exact H. discriminate.
Qed.

Lemma odomCallback_returns_or_spins_witness :
  outcome_of (odomCallback 1 sample_back_at_2s (fresh ros_down tt))
  = Returned tt /\
  odomCallback 1000 sample_back_at_2s
    (World (set_odom_mutex false vpROSRobot_new) ros_down tt)
  = (Spinning, World (set_odom_mutex false vpROSRobot_new) ros_down tt, []).
Proof.
  split.
  - exact (proj1 (proj1 (odomCallback_returns_or_spins 0 sample_back_at_2s
                           (fresh ros_down tt)) eq_refl)).
  - exact (proj1 (proj2 (odomCallback_returns_or_spins 1000 sample_back_at_2s
                           (World (set_odom_mutex false vpROSRobot_new)
                              ros_down tt))) eq_refl).
Defined.

(** X11. For [X], [A], [B] of type [int] with [A <= B], [CLIP(X,A,B)] is
    an [int] in [A..B] (bounds included): [X] when [X] is in that range,
    [A] when [X] is below it and [B] when [X] is above it. *)
Theorem CLIP_saturates (X A B : Z) :
  is_int X = true -> is_int A = true -> is_int B = true ->
  (A <= B)%Z ->
  is_int (CLIP X A B) = true /\
  (A <= CLIP X A B <= B)%Z /\
  ((A <= X <= B)%Z -> CLIP X A B = X) /\
  ((X < A)%Z -> CLIP X A B = A) /\
  ((B < X)%Z -> CLIP X A B = B).
Proof.
  intros HX HA HB H. unfold CLIP, MIN, MAX.
  destruct (X <? A)%Z eqn:E1;
    [apply Z.ltb_lt in E1 | apply Z.ltb_ge in E1];
    match goal with
    | |- context [(?u >? ?v)%Z] =>
        destruct (u >? v)%Z eqn:E2;
        [apply Z.gtb_lt in E2 | rewrite Z.gtb_ltb in E2; apply Z.ltb_ge in E2]
    end;
    repeat split; intros; try assumption; lia.
Qed.

Lemma CLIP_saturates_witness :
  CLIP 7 0 5 = 5%Z /\ CLIP (-3) 0 5 = 0%Z /\ CLIP 4 0 5 = 4%Z.
Proof.
  pose proof (@CLIP_saturates 7%Z 0%Z 5%Z eq_refl eq_refl eq_refl) as T7.
  pose proof (@CLIP_saturates (-3)%Z 0%Z 5%Z eq_refl eq_refl eq_refl) as T3.
  pose proof (@CLIP_saturates 4%Z 0%Z 5%Z eq_refl eq_refl eq_refl) as T4.
  destruct T7 as (_ & _ & _ & _ & T7); [lia|].
  destruct T3 as (_ & _ & _ & T3 & _); [lia|].
  destruct T4 as (_ & _ & T4 & _); [lia|].
  split; [apply T7; lia | split; [apply T3; lia | apply T4; lia]].
Defined.

(** ** Sequences of calls *)

Ltac split_ifs :=
  repeat match goal with
         | |- context [if ?b then _ else _] => destruct b eqn:?; cbn
         | |- context [negb ?b] => destruct b eqn:?; cbn
         end.

Section CallRuns.
Variable vpRotationMatrix : Type.
Variable R_of_q : vpQuaternionVector -> vpRotationMatrix.
Variable Rxyz_of_R : vpRotationMatrix -> vpColVector.

Local Abbreviation perform := (perform R_of_q Rxyz_of_R).

(** The calls that wait for the flag, on a flag that is taken. *)
Lemma perform_held (fuel : nat) (c : call) (s : process) :
  odom_mutex (fst s) = false ->
  odom_mutex (fst (snd (perform fuel c s))) = false /\
  odometry_record (fst (snd (perform fuel c s))) = odometry_record (fst s).
Proof.
  destruct s as [r rt]. cbn [fst]. intros H.
  destruct c; unfold perform, run_call; cbn [fst snd].
  - destruct r, rt. simpl in H. subst.
    unfold init, init_argv, strcpy, undefined, bind, member, runtime. cbn. split_ifs;
      split; reflexivity.
  - destruct r, rt. simpl in H. subst.
    unfold init_argv, bind, member, runtime. cbn. split_ifs;
      split; reflexivity.
  - destruct r, rt. simpl in H. subst.
    unfold setVelocity, bind, member, runtime. cbn. split_ifs;
      split; reflexivity.
  - rewrite getPosition_held by exact H. split; [exact H | reflexivity].
  - rewrite getDisplacement_held by exact H. split; [exact H | reflexivity].
  - rewrite (getDisplacement_dis_ignores_timestamp indeterminate indeterminate).
    cbv zeta. cbn [self ros refs].
    rewrite getDisplacement_held by exact H. split; [exact H | reflexivity].
  - rewrite odomCallback_held by exact H. split; [exact H | reflexivity].
Qed.

(** On a free flag every call but [getPosition] in an unsupported frame
    ends, and leaves the flag free. *)
Lemma perform_free (fuel : nat) (c : call) (s : process) :
  odom_mutex (fst s) = true ->
  getPosition_elsewhere c = false ->
  odom_mutex (fst (snd (perform (S fuel) c s))) = true /\
  is_Spinning (fst (perform (S fuel) c s)) = false.
Proof.
  destruct s as [r rt]. cbn [fst]. intros H E.
  destruct c; unfold perform, run_call; cbn [fst snd].
  - destruct r, rt. simpl in H. subst.
    unfold init, init_argv, strcpy, undefined, bind, member, runtime. cbn. split_ifs;
      split; reflexivity.
  - destruct r, rt. simpl in H. subst.
    unfold init_argv, bind, member, runtime. cbn. split_ifs;
      split; reflexivity.
  - destruct r, rt. simpl in H. subst.
    unfold setVelocity, bind, member, runtime. cbn. split_ifs;
      split; reflexivity.
  - destruct frame; try discriminate E.
    rewrite getPosition_free by exact H. split; [exact H | reflexivity].
  - destruct frame;
      [rewrite getDisplacement_free by exact H
      | rewrite getDisplacement_unsupported by (trivial; discriminate) ..];
      split; solve [exact H | reflexivity].
  - rewrite (getDisplacement_dis_ignores_timestamp indeterminate indeterminate).
    cbv zeta. cbn [self ros refs].
    destruct frame;
      [rewrite getDisplacement_free by exact H
      | rewrite getDisplacement_unsupported by (trivial; discriminate) ..];
      split; solve [exact H | reflexivity].
  - destruct (odomCallback_free fuel msg (World r rt tt) H) as [Ho Hw].
    rewrite Ho, Hw. split; reflexivity.
Qed.

(** Only [odomCallback] writes position, orientation, stamp and
    accumulator. *)
Lemma perform_sampled (fuel : nat) (c : call) (s : process) :
  is_odomCallback c = false ->
  sampled (fst (snd (perform fuel c s))) = sampled (fst s).
Proof.
  destruct s as [r rt]. cbn [fst]. intros E.
  destruct c; try discriminate E; unfold perform, run_call; cbn [fst snd].
  - destruct r, rt.
    unfold init, init_argv, strcpy, undefined, bind, member, runtime. cbn. split_ifs; reflexivity.
  - destruct r, rt.
    unfold init_argv, bind, member, runtime. cbn. split_ifs; reflexivity.
  - destruct r, rt.
    unfold setVelocity, bind, member, runtime. cbn. split_ifs; reflexivity.
  - destruct fuel as [|fuel]; [reflexivity|].
    destruct (odom_mutex r) eqn:H.
    + destruct frame;
        [rewrite getPosition_free by exact H
        | rewrite getPosition_unsupported by (trivial; discriminate) ..];
        reflexivity.
    + rewrite getPosition_held by exact H. reflexivity.
  - destruct fuel as [|fuel]; [reflexivity|].
    destruct (odom_mutex r) eqn:H.
    + destruct frame;
        [rewrite getDisplacement_free by exact H
        | rewrite getDisplacement_unsupported by (trivial; discriminate) ..];
        reflexivity.
    + rewrite getDisplacement_held by exact H. reflexivity.
  - rewrite (getDisplacement_dis_ignores_timestamp indeterminate indeterminate).
    cbv zeta. cbn [self ros refs].
    destruct fuel as [|fuel]; [reflexivity|].
    destruct (odom_mutex r) eqn:H.
    + destruct frame;
        [rewrite getDisplacement_free by exact H
        | rewrite getDisplacement_unsupported by (trivial; discriminate) ..];
        reflexivity.
    + rewrite getDisplacement_held by exact H. reflexivity.
Qed.

(** No call changes the size of a vector of the object. *)
Lemma perform_sized (fuel : nat) (c : call) (s : process) :
  sized (fst s) -> sized (fst (snd (perform fuel c s))).
Proof.
  destruct s as [r rt]. cbn [fst]. intros Hs.
  destruct c; unfold perform, run_call; cbn [fst snd].
  - destruct r, rt.
    unfold init, init_argv, strcpy, undefined, bind, member, runtime. cbn. split_ifs; exact Hs.
  - destruct r, rt.
    unfold init_argv, bind, member, runtime. cbn. split_ifs; exact Hs.
  - destruct r, rt.
    unfold setVelocity, bind, member, runtime. cbn. split_ifs; exact Hs.
  - destruct fuel as [|fuel]; [exact Hs|].
    destruct (odom_mutex r) eqn:H.
    + destruct frame;
        [rewrite getPosition_free by exact H
        | rewrite getPosition_unsupported by (trivial; discriminate) ..];
        exact Hs.
    + rewrite getPosition_held by exact H. exact Hs.
  - destruct fuel as [|fuel]; [exact Hs|].
    destruct (odom_mutex r) eqn:H.
    + destruct frame;
        [rewrite getDisplacement_free by exact H
        | rewrite getDisplacement_unsupported by (trivial; discriminate) ..];
        try exact Hs.
      destruct Hs as (Hp & Hq & Hd & Hv). repeat split; assumption.
    + rewrite getDisplacement_held by exact H. exact Hs.
  - rewrite (getDisplacement_dis_ignores_timestamp indeterminate indeterminate).
    cbv zeta. cbn [self ros refs].
    destruct fuel as [|fuel]; [exact Hs|].
    destruct (odom_mutex r) eqn:H.
    + destruct frame;
        [rewrite getDisplacement_free by exact H
        | rewrite getDisplacement_unsupported by (trivial; discriminate) ..];
        try exact Hs.
      destruct Hs as (Hp & Hq & Hd & Hv). repeat split; assumption.
    + rewrite getDisplacement_held by exact H. exact Hs.
  - destruct fuel as [|fuel]; [exact Hs|].
    destruct (odom_mutex r) eqn:H.
    + destruct (odomCallback_free fuel msg (World r rt tt) H) as [_ Hw].
      rewrite Hw. destruct Hs as (Hp & Hq & Hd & Hv).
      repeat split; try assumption; try reflexivity.
      cbn [self integrated displacement].
      destruct (started r); [rewrite accumulate_length|]; exact Hd.
    + rewrite odomCallback_held by exact H. exact Hs.
Qed.
End CallRuns.

Lemma after_calls_step (vpRotationMatrix : Type)
  (R_of_q : vpQuaternionVector -> vpRotationMatrix)
  (Rxyz_of_R : vpRotationMatrix -> vpColVector)
  (fuel : nat) (c : call) (rest : list call) (s : process) :
  after_calls R_of_q Rxyz_of_R fuel (c :: rest) s
  = after_calls R_of_q Rxyz_of_R fuel rest
      (snd (perform R_of_q Rxyz_of_R fuel c s)).
Proof. reflexivity. Qed.

(** X12. From a free flag, whatever calls are made in whatever order, as
    long as none is [getPosition] with an unsupported frame and none runs
    into undefined behaviour: no call spins and the flag is free at the
    end. *)
Theorem flag_stays_free (vpRotationMatrix : Type)
  (R_of_q : vpQuaternionVector -> vpRotationMatrix)
  (Rxyz_of_R : vpRotationMatrix -> vpColVector)
  (fuel : nat) (calls : list call) (s : process) :
  odom_mutex (fst s) = true ->
  existsb getPosition_elsewhere calls = false ->
  existsb is_Undefined (outcomes R_of_q Rxyz_of_R (S fuel) calls s) = false ->
  odom_mutex (fst (after_calls R_of_q Rxyz_of_R (S fuel) calls s)) = true /\
  existsb is_Spinning (outcomes R_of_q Rxyz_of_R (S fuel) calls s) = false.
Proof.
  revert s. induction calls as [|c rest IH]; intros s H E U.
  - split; [exact H | reflexivity].
  - cbn [existsb] in E. apply orb_false_iff in E. destruct E as [Ec Er].
    cbn [outcomes existsb] in U. apply orb_false_iff in U.
    destruct U as [_ Ur].
    destruct (perform_free R_of_q Rxyz_of_R fuel c s H Ec) as [Hf Hs].
    destruct (IH _ Hf Er Ur) as [IH1 IH2].
    rewrite after_calls_step. cbn [outcomes existsb].
    rewrite Hs, IH2. split; [exact IH1 | reflexivity].
Qed.

Lemma flag_stays_free_witness :
  outcomes (fun q : vpQuaternionVector => q) (fun R => firstn 3 R) 1
    [Call_odomCallback (sample 1 0 origin at_rest);
     Call_getDisplacement CAMERA_FRAME [] no_time;
     Call_setVelocity MIXT_FRAME at_rest;
     Call_init_argv ["__master:=http://127.0.0.1:11311"%string];
     Call_init;
     Call_odomCallback sample_back_at_2s;
     Call_getPosition REFERENCE_FRAME [];
     Call_getDisplacement_dis REFERENCE_FRAME [] no_time]
    (vpROSRobot_new, ros_down)
  = [Returned tt;
     Thrown (wrongStateError
               "Cannot get robot displacement in the specified control frame");
     Thrown (wrongStateError
               "Cannot send the robot velocity in the specified control frame");
     Returned tt; Returned tt; Returned tt; Returned tt; Returned tt] /\
  odom_mutex
    (fst (after_calls (fun q : vpQuaternionVector => q) (fun R => firstn 3 R) 1
            [Call_odomCallback (sample 1 0 origin at_rest);
     Call_getDisplacement CAMERA_FRAME [] no_time;
     Call_setVelocity MIXT_FRAME at_rest;
     Call_init_argv ["__master:=http://127.0.0.1:11311"%string];
     Call_init;
     Call_odomCallback sample_back_at_2s;
     Call_getPosition REFERENCE_FRAME [];
     Call_getDisplacement_dis REFERENCE_FRAME [] no_time]
            (vpROSRobot_new, ros_down))) = true.
Proof.
  split; [vm_compute; reflexivity|].
  assert (U : existsb is_Undefined
                (outcomes (fun q : vpQuaternionVector => q) (fun R => firstn 3 R) 1
                   [Call_odomCallback (sample 1 0 origin at_rest);
     Call_getDisplacement CAMERA_FRAME [] no_time;
     Call_setVelocity MIXT_FRAME at_rest;
     Call_init_argv ["__master:=http://127.0.0.1:11311"%string];
     Call_init;
     Call_odomCallback sample_back_at_2s;
     Call_getPosition REFERENCE_FRAME [];
     Call_getDisplacement_dis REFERENCE_FRAME [] no_time]
                   (vpROSRobot_new, ros_down)) = false)
    by (vm_compute; reflexivity).
  exact (proj1 (flag_stays_free (fun q : vpQuaternionVector => q) (fun R => firstn 3 R) 0
                  [Call_odomCallback (sample 1 0 origin at_rest);
     Call_getDisplacement CAMERA_FRAME [] no_time;
     Call_setVelocity MIXT_FRAME at_rest;
     Call_init_argv ["__master:=http://127.0.0.1:11311"%string];
     Call_init;
     Call_odomCallback sample_back_at_2s;
     Call_getPosition REFERENCE_FRAME [];
     Call_getDisplacement_dis REFERENCE_FRAME [] no_time]
                  (vpROSRobot_new, ros_down) eq_refl eq_refl U)).
Defined.

(** X13. No member function gives a taken flag back: once the flag is
    taken with no call in progress, it is still taken after any calls, with
    any fuel, none of which runs into undefined behaviour, and position,
    orientation, stamp, accumulator and baseline are what they were. *)
Theorem taken_flag_stays_taken (vpRotationMatrix : Type)
  (R_of_q : vpQuaternionVector -> vpRotationMatrix)
  (Rxyz_of_R : vpRotationMatrix -> vpColVector)
  (fuel : nat) (calls : list call) (s : process) :
  odom_mutex (fst s) = false ->
  existsb is_Undefined (outcomes R_of_q Rxyz_of_R fuel calls s) = false ->
  odom_mutex (fst (after_calls R_of_q Rxyz_of_R fuel calls s)) = false /\
  odometry_record (fst (after_calls R_of_q Rxyz_of_R fuel calls s))
  = odometry_record (fst s).
Proof.
  revert s. induction calls as [|c rest IH]; intros s H U.
  - split; [exact H | reflexivity].
  - cbn [outcomes existsb] in U. apply orb_false_iff in U.
    destruct U as [_ Ur].
    destruct (perform_held R_of_q Rxyz_of_R fuel c s H) as [Hf Hr].
    rewrite after_calls_step. destruct (IH _ Hf Ur) as [IH1 IH2].
    split; [exact IH1 | rewrite IH2; exact Hr].
Qed.

(** After [getPosition] in the camera frame has thrown, two samples, a
    read and an initialisation leave flag and record as they are. *)
Lemma taken_flag_stays_taken_witness :
  odom_mutex
    (fst (after_calls (fun q : vpQuaternionVector => q) (fun R => firstn 3 R) 1000
            [Call_odomCallback (sample 1 0 [4; 5; 6]%float at_rest);
     Call_odomCallback sample_back_at_2s;
     Call_getDisplacement REFERENCE_FRAME [] no_time;
     Call_init_argv []]
            (snd (perform (fun q : vpQuaternionVector => q) (fun R => firstn 3 R) 1
          (Call_getPosition CAMERA_FRAME []) (vpROSRobot_new, ros_down))))) = false /\
  odometry_record
    (fst (after_calls (fun q : vpQuaternionVector => q) (fun R => firstn 3 R) 1000
            [Call_odomCallback (sample 1 0 [4; 5; 6]%float at_rest);
     Call_odomCallback sample_back_at_2s;
     Call_getDisplacement REFERENCE_FRAME [] no_time;
     Call_init_argv []]
            (snd (perform (fun q : vpQuaternionVector => q) (fun R => firstn 3 R) 1
          (Call_getPosition CAMERA_FRAME []) (vpROSRobot_new, ros_down)))))
  = odometry_record
      (fst (snd (perform (fun q : vpQuaternionVector => q) (fun R => firstn 3 R) 1
          (Call_getPosition CAMERA_FRAME []) (vpROSRobot_new, ros_down)))).
Proof.
  assert (U : existsb is_Undefined
                (outcomes (fun q : vpQuaternionVector => q) (fun R => firstn 3 R) 1000
                   [Call_odomCallback (sample 1 0 [4; 5; 6]%float at_rest);
     Call_odomCallback sample_back_at_2s;
     Call_getDisplacement REFERENCE_FRAME [] no_time;
     Call_init_argv []]
                   (snd (perform (fun q : vpQuaternionVector => q) (fun R => firstn 3 R) 1
          (Call_getPosition CAMERA_FRAME []) (vpROSRobot_new, ros_down)))) = false)
    by (vm_compute; reflexivity).
  exact (taken_flag_stays_taken (fun q : vpQuaternionVector => q) (fun R => firstn 3 R) 1000
           [Call_odomCallback (sample 1 0 [4; 5; 6]%float at_rest);
     Call_odomCallback sample_back_at_2s;
     Call_getDisplacement REFERENCE_FRAME [] no_time;
     Call_init_argv []]
           (snd (perform (fun q : vpQuaternionVector => q) (fun R => firstn 3 R) 1
          (Call_getPosition CAMERA_FRAME []) (vpROSRobot_new, ros_down)))
           eq_refl U).
Defined.

(** X14. Position, orientation, stored stamp and accumulator are written
    by [odomCallback] only: calls of the other member functions, in any
    number and order, with any fuel and whatever the flag, none of which
    runs into undefined behaviour, leave them as they are; in particular
    no reader resets the accumulator. *)
Theorem only_odomCallback_writes_samples (vpRotationMatrix : Type)
  (R_of_q : vpQuaternionVector -> vpRotationMatrix)
  (Rxyz_of_R : vpRotationMatrix -> vpColVector)
  (fuel : nat) (calls : list call) (s : process) :
  existsb is_odomCallback calls = false ->
  existsb is_Undefined (outcomes R_of_q Rxyz_of_R fuel calls s) = false ->
  sampled (fst (after_calls R_of_q Rxyz_of_R fuel calls s)) = sampled (fst s).
Proof.
  revert s. induction calls as [|c rest IH]; intros s E U; [reflexivity|].
  cbn [existsb] in E. apply orb_false_iff in E. destruct E as [Ec Er].
  cbn [outcomes existsb] in U. apply orb_false_iff in U. destruct U as [_ Ur].
  rewrite after_calls_step, (IH _ Er Ur).
  apply perform_sampled, Ec.
Qed.

Lemma only_odomCallback_writes_samples_witness :
  displacement
    (fst (self (world_of (deliver 1 samples_to_2500ms (fresh ros_down tt))),
     ros_down))
  = [1.5; 0; 0; 0; 0; 0]%float /\
  sampled
    (fst (after_calls (fun q : vpQuaternionVector => q) (fun R => firstn 3 R) 1
            [Call_getDisplacement REFERENCE_FRAME [] no_time;
     Call_getDisplacement_dis REFERENCE_FRAME [] no_time;
     Call_getPosition MIXT_FRAME [];
     Call_init_argv [];
     Call_init]
            (self (world_of (deliver 1 samples_to_2500ms (fresh ros_down tt))),
     ros_down)))
  = sampled
      (fst (self (world_of (deliver 1 samples_to_2500ms (fresh ros_down tt))),
     ros_down)).
Proof.
  split; [vm_compute; reflexivity|].
  assert (U : existsb is_Undefined
                (outcomes (fun q : vpQuaternionVector => q) (fun R => firstn 3 R) 1
                   [Call_getDisplacement REFERENCE_FRAME [] no_time;
     Call_getDisplacement_dis REFERENCE_FRAME [] no_time;
     Call_getPosition MIXT_FRAME [];
     Call_init_argv [];
     Call_init]
                   (self (world_of (deliver 1 samples_to_2500ms (fresh ros_down tt))),
     ros_down)) = false)
    by (vm_compute; reflexivity).
  exact (only_odomCallback_writes_samples (fun q : vpQuaternionVector => q) (fun R => firstn 3 R) 1
           [Call_getDisplacement REFERENCE_FRAME [] no_time;
     Call_getDisplacement_dis REFERENCE_FRAME [] no_time;
     Call_getPosition MIXT_FRAME [];
     Call_init_argv [];
     Call_init]
           (self (world_of (deliver 1 samples_to_2500ms (fresh ros_down tt))),
     ros_down)
           eq_refl U).
Defined.

(** X15. After any calls on a newly constructed object, with any fuel,
    none of which runs into undefined behaviour, [p] has 3 rows, [q] 4
    rows, and [displacement] and [pose_prev] 6 rows each. *)
Theorem vectors_keep_their_sizes (vpRotationMatrix : Type)
  (R_of_q : vpQuaternionVector -> vpRotationMatrix)
  (Rxyz_of_R : vpRotationMatrix -> vpColVector)
  (fuel : nat) (calls : list call) (rt : ros_runtime) :
  existsb is_Undefined
    (outcomes R_of_q Rxyz_of_R fuel calls (vpROSRobot_new, rt)) = false ->
  sized (fst (after_calls R_of_q Rxyz_of_R fuel calls (vpROSRobot_new, rt))).
Proof.
  assert (G : forall s,
             sized (fst s) ->
             existsb is_Undefined (outcomes R_of_q Rxyz_of_R fuel calls s)
             = false ->
             sized (fst (after_calls R_of_q Rxyz_of_R fuel calls s))).
  { induction calls as [|c rest IH]; intros s Hs U; [exact Hs|].
    cbn [outcomes existsb] in U. apply orb_false_iff in U.
    destruct U as [_ Ur].
    rewrite after_calls_step. apply IH; [apply perform_sized, Hs | exact Ur]. }
  intros U. apply G; [repeat split | exact U].
Qed.

Lemma vectors_keep_their_sizes_witness :
  sized
    (fst (after_calls (fun q : vpQuaternionVector => q) (fun R => firstn 3 R) 1
            [Call_odomCallback (sample 1 0 [4; 5; 6]%float at_rest);
     Call_getDisplacement REFERENCE_FRAME [] no_time;
     Call_odomCallback sample_back_at_2s;
     Call_getPosition CAMERA_FRAME [];
     Call_init_argv []]
            (vpROSRobot_new, ros_down))).
Proof.
  assert (U : existsb is_Undefined
                (outcomes (fun q : vpQuaternionVector => q) (fun R => firstn 3 R) 1
                   [Call_odomCallback (sample 1 0 [4; 5; 6]%float at_rest);
     Call_getDisplacement REFERENCE_FRAME [] no_time;
     Call_odomCallback sample_back_at_2s;
     Call_getPosition CAMERA_FRAME [];
     Call_init_argv []]
                   (vpROSRobot_new, ros_down)) = false)
    by (vm_compute; reflexivity).
  exact (vectors_keep_their_sizes (fun q : vpQuaternionVector => q) (fun R => firstn 3 R) 1
           [Call_odomCallback (sample 1 0 [4; 5; 6]%float at_rest);
     Call_getDisplacement REFERENCE_FRAME [] no_time;
     Call_odomCallback sample_back_at_2s;
     Call_getPosition CAMERA_FRAME [];
     Call_init_argv []]
           ros_down U).
Defined.
